(** * XRayLabeler: a shallow embedding of [xray_labeler.py]

    The labeler is a Python class whose methods mutate [self], print to
    standard output, draw on a matplotlib axes and read or rewrite one CSV
    file.  The embedding keeps that shape:

    - [Labeler] is the record of the attributes of [self];
    - [World] holds everything outside the object that the methods touch
      (the input directory tree, the output file, standard output, the axes);
    - a method is a computation [M unit] in a state-and-exception monad
      over the pair of [self] and the world;
    - a Python [dict] is an insertion-ordered association list ([Dict]);
    - the CSV file is the sequence of rows that [csv.reader] yields and
      [csv.writer] is given (the quoting done by the [csv] module is below
      this interface);
    - Python's [float] arithmetic and its conversions to and from text are
      the interface [PyFloat]; the numpy rescale kernel is written out on
      IEEE binary64 with [SpecFloat]. *)

From Stdlib Require Import ZArith List String Ascii Bool Lia.
From Stdlib Require Import SpecFloat DecimalString DecimalZ.
Import ListNotations.

Set Warnings "-register-all".

Local Open Scope string_scope.
Local Open Scope list_scope.
Local Open Scope Z_scope.

(** ** Exceptions and the monad of methods *)

Inductive exn : Type :=
| StopIteration
| ValueError
| IndexError
| Exception
| SystemExit (code : Z).

Inductive result (A : Type) : Type :=
| Ok (a : A)
| Raise (e : exn).

Arguments Ok {A} a.
Arguments Raise {A} e.

(** ** Insertion-ordered dictionaries with string keys

    [d[k] = v] keeps the position of a key that is already there and appends
    a new key at the end; iteration follows the list. *)

Module Dict.
Section Dict.
Context {V : Type}.

Definition t : Type := list (string * V).

Definition empty : t := [].

Fixpoint get (d : t) (k : string) : option V :=
  match d with
  | [] => None
  | (k', v) :: d' => if String.eqb k' k then Some v else get d' k
  end.

Definition mem (d : t) (k : string) : bool :=
  match get d k with Some _ => true | None => false end.

Fixpoint set (d : t) (k : string) (v : V) : t :=
  match d with
  | [] => [(k, v)]
  | (k', v') :: d' =>
      if String.eqb k' k then (k', v) :: d' else (k', v') :: set d' k v
  end.

(** [d.update(other)]: the items of [other] are assigned in order. *)
Definition update (d other : t) : t :=
  fold_left (fun acc kv => set acc (fst kv) (snd kv)) other d.

(** [{**a, **b}]: a fresh dict that receives the items of [a], then of [b]. *)
Definition merge (a b : t) : t := update (update empty a) b.

Definition keys (d : t) : list string := map fst d.
Definition items (d : t) : list (string * V) := d.

(** A dict holds each key once. *)
Definition wf (d : t) : Prop := NoDup (keys d).

End Dict.
Arguments t V : clear implicits.
End Dict.

(** ** Python lists, paths and the directory tree *)

(** [l[i]] for an [int] index: negative indices count from the end, anything
    outside [-len, len) raises [IndexError]. *)
Definition py_getitem {A : Type} (l : list A) (i : Z) : result A :=
  let n := Z.of_nat (List.length l) in
  let j := if i <? 0 then n + i else i in
  if (0 <=? j) && (j <? n) then
    match nth_error l (Z.to_nat j) with
    | Some a => Ok a
    | None => Raise IndexError
    end
  else Raise IndexError.

(** A [pathlib.Path] is its sequence of components; [.name] is the last. *)
Definition path : Type := list string.

Definition name (p : path) : string := last p "".

(** What [Path.glob] sees under the input directory. *)
Inductive entry : Type :=
| File (n : string)
| Dir (n : string) (children : list entry).

Definition entry_name (e : entry) : string :=
  match e with File n => n | Dir n _ => n end.

Definition ends_with (s suffix : string) : bool :=
  (String.length suffix <=? String.length s)%nat &&
  String.eqb
    (substring (String.length s - String.length suffix)
               (String.length suffix) s)
    suffix.

(** The pattern ['**/*' + ext]: every directory below (and including) the
    start, in pre-order, contributes its children whose name ends in [ext]. *)
Fixpoint glob_rec (ext : string) (here : path) (e : entry) {struct e}
  : list path :=
  match e with
  | File _ => []
  | Dir _ children =>
      map (fun c => here ++ [entry_name c])
          (filter (fun c => ends_with (entry_name c) ext) children)
      ++ flat_map (fun c => glob_rec ext (here ++ [entry_name c]) c) children
  end.

(** ** Pixel arrays and the display rescale *)

Definition image : Type := list (list Z).

(** [image.max()]; numpy raises [ValueError] on an array without elements. *)
Definition image_max (img : image) : result Z :=
  match List.concat img with
  | [] => Raise ValueError
  | p :: ps => Ok (fold_left Z.max ps p)
  end.

(** IEEE binary64, as numpy's [float64]. *)
Definition b64_of_Z (z : Z) : spec_float := binary_normalize 53 1024 z 0 false.
Definition b64_div : spec_float -> spec_float -> spec_float := SFdiv 53 1024.
Definition b64_mul : spec_float -> spec_float -> spec_float := SFmul 53 1024.

(** [.astype(np.uint8)] of a [float64], as numpy does it on x86-64: the
    fraction is dropped and the value goes through a 32-bit integer, of
    which the low 8 bits are kept; a value outside the 32-bit range, an
    infinity or a NaN gives 0. *)
Definition astype_uint8 (f : spec_float) : Z :=
  match f with
  | S754_finite sign m e =>
      let v := if 0 <=? e then Z.pos m * 2 ^ e else Z.pos m / 2 ^ (- e) in
      let t := if sign then - v else v in
      if (- 2 ^ 31 <=? t) && (t <? 2 ^ 31) then t mod 256 else 0
  | _ => 0
  end.

(** One element of [(image / image.max() * 255).astype(np.uint8)]. *)
Definition rescale_pixel (m p : Z) : Z :=
  astype_uint8 (b64_mul (b64_div (b64_of_Z p) (b64_of_Z m)) (b64_of_Z 255)).

Definition rescale (img : image) (m : Z) : image :=
  map (map (rescale_pixel m)) img.

(** [if image.max() > 0: image = (image / image.max() * 255).astype(...)] *)
Definition normalize (img : image) : result image :=
  match image_max img with
  | Ok m => Ok (if 0 <? m then rescale img m else img)
  | Raise e => Raise e
  end.

(** ** Python floats: arithmetic and text

    The coordinates of an annotation are Python [float]s.  The labeler
    compares them ([min]), subtracts them, takes [abs], prints them
    ([csv.writer] applies [str]) and reads them back ([float(text)], which
    raises [ValueError] on text that is not a number). *)
Class PyFloat : Type := {
  num : Type;
  num_lt : num -> num -> bool;
  num_sub : num -> num -> num;
  num_abs : num -> num;
  py_str : num -> string;
  py_float : string -> option num
}.

(** The built-in [min(a, b)]: [b] if [b < a], else [a]. *)
Definition py_min {F : PyFloat} (a b : num) : num :=
  if num_lt b a then b else a.


(** The integer-valued floats, printed as Python prints them (["12.0"]) and
    parsed from an optional minus sign, digits and an optional [".0"]. *)
Definition strip_suffix (suffix s : string) : option string :=
  if ends_with s suffix
  then Some (substring 0 (String.length s - String.length suffix) s)
  else None.

Definition Z_str (z : Z) : string :=
  (NilZero.string_of_int (Z.to_int z) ++ ".0")%string.

Definition Z_float (s : string) : option Z :=
  let digits := match strip_suffix ".0" s with Some d => d | None => s end in
  option_map Z.of_int (NilZero.int_of_string digits).

#[export] Instance ZFloat : PyFloat := {|
  num := Z;
  num_lt := Z.ltb;
  num_sub := Z.sub;
  num_abs := Z.abs;
  py_str := Z_str;
  py_float := Z_float
|}.

(** ** The labeler's state and what surrounds it *)

Definition row : Type := list string.

(** The row [save_annotations] writes first and [load_existing_annotations]
    reads past. *)
Definition header : row := ["filename"; "x"; "y"; "width"; "height"].

(** The lines the program prints. *)
Inductive message : Type :=
| FoundDicom (count : Z)
| FoundJpgPng (count : Z)
| NoFilesFound (dir : path)
| ErrorReadingFile (file : path)
| AnnotationsSaved (file : path).

(** The image decoders, as functions of the file: [pydicom.dcmread(f)
    .pixel_array] and [cv2.imread(str(f), cv2.IMREAD_GRAYSCALE)]; [None] when
    the DICOM read raises, respectively when OpenCV returns [None]. *)
Class Decoders : Type := {
  dcmread_pixel_array : path -> option image;
  cv2_imread : path -> option image
}.

Section Program.
Context {F : PyFloat} {D : Decoders}.

(** The dict [{'x': .., 'y': .., 'width': .., 'height': ..}]. *)
Record Annotation : Type := {
  x : num;
  y : num;
  width : num;
  height : num
}.

(** The attributes of [self] ([current_rect] is set to [None] once and never
    used; the matplotlib handles are in [World]). *)
Record Labeler : Type := {
  input_dir : path;
  output_file : path;
  dicom_files : list path;
  current_index : Z;
  annotations : Dict.t Annotation;
  existing_annotations : Dict.t Annotation
}.

(** The axes [self.ax]. *)
Record Canvas : Type := {
  picture : option image;
  title : option (string * Z * Z);
  patches : list Annotation;
  error_text : bool
}.

Definition blank : Canvas :=
  {| picture := None; title := None; patches := []; error_text := false |}.

(** [fs_tree] is the tree under [input_dir]; [fs_output] is the rows of the
    file at [output_file], [None] when there is no such file. *)
Record World : Type := {
  fs_tree : entry;
  fs_output : option (list row);
  stdout : list message;
  canvas : Canvas
}.

Definition State : Type := (Labeler * World)%type.

(** A method runs on [self] and the world and returns or raises. *)
Definition M (A : Type) : Type := State -> result A * State.

Definition ret {A : Type} (a : A) : M A := fun st => (Ok a, st).

Definition bind {A B : Type} (c : M A) (k : A -> M B) : M B :=
  fun st =>
    match c st with
    | (Ok a, st') => k a st'
    | (Raise e, st') => (Raise e, st')
    end.

Notation "v <- c ;; k" := (bind c (fun v => k))
  (at level 61, c at next level, right associativity).
Notation "c ;; k" := (bind c (fun _ => k))
  (at level 61, right associativity).

Definition raise {A : Type} (e : exn) : M A := fun st => (Raise e, st).

Definition lift {A : Type} (r : result A) : M A := fun st => (r, st).

Definition get_self : M Labeler := fun st => (Ok (fst st), st).

Definition get_world : M World := fun st => (Ok (snd st), st).

Definition modify_self (f : Labeler -> Labeler) : M unit :=
  fun st => (Ok tt, (f (fst st), snd st)).

Definition modify_world (f : World -> World) : M unit :=
  fun st => (Ok tt, (fst st, f (snd st))).

(** [try: c except Exception: h]; [SystemExit] is not an [Exception]. *)
Definition try_except {A : Type} (c : M A) (h : M A) : M A :=
  fun st =>
    match c st with
    | (Raise (SystemExit code), st') => (Raise (SystemExit code), st')
    | (Raise _, st') => h st'
    | (Ok a, st') => (Ok a, st')
    end.

Definition set_dicom_files (l : list path) (s : Labeler) : Labeler :=
  {| input_dir := input_dir s; output_file := output_file s;
     dicom_files := l; current_index := current_index s;
     annotations := annotations s;
     existing_annotations := existing_annotations s |}.

Definition set_current_index (i : Z) (s : Labeler) : Labeler :=
  {| input_dir := input_dir s; output_file := output_file s;
     dicom_files := dicom_files s; current_index := i;
     annotations := annotations s;
     existing_annotations := existing_annotations s |}.

Definition set_annotations (d : Dict.t Annotation) (s : Labeler) : Labeler :=
  {| input_dir := input_dir s; output_file := output_file s;
     dicom_files := dicom_files s; current_index := current_index s;
     annotations := d;
     existing_annotations := existing_annotations s |}.

Definition set_existing_annotations (d : Dict.t Annotation) (s : Labeler)
  : Labeler :=
  {| input_dir := input_dir s; output_file := output_file s;
     dicom_files := dicom_files s; current_index := current_index s;
     annotations := annotations s;
     existing_annotations := d |}.

Definition set_fs_output (o : option (list row)) (w : World) : World :=
  {| fs_tree := fs_tree w; fs_output := o; stdout := stdout w;
     canvas := canvas w |}.

Definition set_canvas (c : Canvas) (w : World) : World :=
  {| fs_tree := fs_tree w; fs_output := fs_output w; stdout := stdout w;
     canvas := c |}.

Definition print (m : message) : M unit :=
  modify_world (fun w =>
    {| fs_tree := fs_tree w; fs_output := fs_output w;
       stdout := stdout w ++ [m]; canvas := canvas w |}).

Definition modify_canvas (f : Canvas -> Canvas) : M unit :=
  modify_world (fun w => set_canvas (f (canvas w)) w).

(** *** [load_existing_annotations] *)

(** [float(s)], raising [ValueError] where the text is not a number. *)
Definition float (s : string) : result num :=
  match py_float s with
  | Some v => Ok v
  | None => Raise ValueError
  end.

(** The body of [for row in reader]. *)
Definition load_row (existing : Dict.t Annotation) (r : row)
  : result (Dict.t Annotation) :=
  if (5 <=? Z.of_nat (List.length r)) then
    let filename := nth 0 r "" in
    match float (nth 1 r "") with
    | Raise e => Raise e
    | Ok vx =>
    match float (nth 2 r "") with
    | Raise e => Raise e
    | Ok vy =>
    match float (nth 3 r "") with
    | Raise e => Raise e
    | Ok vw =>
    match float (nth 4 r "") with
    | Raise e => Raise e
    | Ok vh =>
        Ok (Dict.set existing filename
              {| x := vx; y := vy; width := vw; height := vh |})
    end end end end
  else Ok existing.

Fixpoint load_rows (existing : Dict.t Annotation) (rows : list row)
  : result (Dict.t Annotation) :=
  match rows with
  | [] => Ok existing
  | r :: rows' =>
      match load_row existing r with
      | Ok existing' => load_rows existing' rows'
      | Raise e => Raise e
      end
  end.

Definition load_existing_annotations : M unit :=
  s <- get_self ;;
  w <- get_world ;;
  match fs_output w with
  | None => ret tt
  | Some rows =>
      match rows with
      | [] => raise StopIteration
      | _headers :: data =>
          existing <- lift (load_rows (existing_annotations s) data) ;;
          modify_self (set_existing_annotations existing)
      end
  end.

(** [XRayLabeler.__init__] *)
Definition init (input output : path) : M unit :=
  modify_self (fun _ =>
    {| input_dir := input; output_file := output; dicom_files := [];
       current_index := 0; annotations := Dict.empty;
       existing_annotations := Dict.empty |}) ;;
  load_existing_annotations.

(** *** [scan_directory] *)

Definition glob (ext : string) : M (list path) :=
  s <- get_self ;;
  w <- get_world ;;
  ret (glob_rec ext (input_dir s) (fs_tree w)).

Definition len (l : list path) : Z := Z.of_nat (List.length l).

Definition scan_directory : M unit :=
  dcm <- glob ".dcm" ;;
  modify_self (set_dicom_files dcm) ;;
  match dcm with
  | [] =>
      jpg <- glob ".jpg" ;;
      png <- glob ".png" ;;
      modify_self (set_dicom_files (jpg ++ png)) ;;
      match jpg ++ png with
      | [] =>
          s <- get_self ;;
          print (NoFilesFound (input_dir s)) ;;
          raise (SystemExit 1)
      | _ => print (FoundJpgPng (len (jpg ++ png)))
      end
  | _ => print (FoundDicom (len dcm))
  end.

(** *** The viewer *)

(** [draw_annotations]: the patches on the axes are removed, then the
    annotation of the current file, if any, is drawn. *)
Definition draw_annotations : M unit :=
  modify_canvas (fun c =>
    {| picture := picture c; title := title c; patches := [];
       error_text := error_text c |}) ;;
  s <- get_self ;;
  f <- lift (py_getitem (dicom_files s) (current_index s)) ;;
  let current_file := name f in
  match Dict.get (annotations s) current_file with
  | Some ann =>
      modify_canvas (fun c =>
        {| picture := picture c; title := title c; patches := patches c ++ [ann];
           error_text := error_text c |})
  | None => ret tt
  end.

(** [on_select], the callback of the rectangle selector; [eclick] and
    [erelease] are the [(xdata, ydata)] of the two mouse events. *)
Definition on_select (eclick erelease : num * num) : M unit :=
  let '(x1, y1) := eclick in
  let '(x2, y2) := erelease in
  let vx := py_min x1 x2 in
  let vy := py_min y1 y2 in
  let vwidth := num_abs (num_sub x2 x1) in
  let vheight := num_abs (num_sub y2 y1) in
  s <- get_self ;;
  f <- lift (py_getitem (dicom_files s) (current_index s)) ;;
  let current_file := name f in
  modify_self (fun s =>
    set_annotations
      (Dict.set (annotations s) current_file
         {| x := vx; y := vy; width := vwidth; height := vheight |}) s) ;;
  draw_annotations.

(** The two nested [try] blocks of [load_current_image] up to the decoded
    array: DICOM first, then OpenCV, then [raise Exception(..)]. *)
Definition read_image (f : path) : result image :=
  match dcmread_pixel_array f with
  | Some img => Ok img
  | None =>
      match cv2_imread f with
      | Some img => Ok img
      | None => Raise Exception
      end
  end.

Definition load_current_image : M unit :=
  s <- get_self ;;
  match dicom_files s with
  | [] => ret tt
  | _ =>
      modify_canvas (fun _ => blank) ;;
      current_file <- lift (py_getitem (dicom_files s) (current_index s)) ;;
      try_except
        (img <- lift (read_image current_file) ;;
         img <- lift (normalize img) ;;
         modify_canvas (fun c =>
           {| picture := Some img;
              title := Some (name current_file, current_index s + 1,
                             len (dicom_files s));
              patches := patches c; error_text := error_text c |}) ;;
         match Dict.get (existing_annotations s) (name current_file) with
         | Some ann =>
             modify_self (fun s =>
               set_annotations
                 (Dict.set (annotations s) (name current_file) ann) s)
         | None => ret tt
         end ;;
         draw_annotations)
        (print (ErrorReadingFile current_file) ;;
         modify_canvas (fun c =>
           {| picture := picture c; title := title c; patches := patches c;
              error_text := true |}))
  end.

Definition next_image : M unit :=
  s <- get_self ;;
  if current_index s <? len (dicom_files s) - 1 then
    modify_self (set_current_index (current_index s + 1)) ;;
    load_current_image
  else ret tt.

Definition previous_image : M unit :=
  s <- get_self ;;
  if 0 <? current_index s then
    modify_self (set_current_index (current_index s - 1)) ;;
    load_current_image
  else ret tt.

(** *** [save_annotations] *)

Definition writerow (r : row) : M unit :=
  modify_world (fun w =>
    set_fs_output
      (Some (match fs_output w with Some rows => rows | None => [] end ++ [r]))
      w).

Definition annotation_row (item : string * Annotation) : row :=
  let '(filename, ann) := item in
  [filename; py_str (x ann); py_str (y ann);
   py_str (width ann); py_str (height ann)].

Fixpoint writerows (items : list (string * Annotation)) : M unit :=
  match items with
  | [] => ret tt
  | item :: items' => writerow (annotation_row item) ;; writerows items'
  end.

(** The method as it runs once [open(self.output_file, 'w')] has returned
    the file: the [OSError] that [open] raises when the file cannot be
    created (a missing directory, no permission) is not part of [exn], so
    what is stated of a save is stated of a save whose file opens. *)
Definition save_annotations : M unit :=
  (* open(self.output_file, 'w') truncates the file *)
  modify_world (set_fs_output (Some [])) ;;
  writerow header ;;
  s <- get_self ;;
  let combined_annotations :=
    Dict.merge (existing_annotations s) (annotations s) in
  writerows (Dict.items combined_annotations) ;;
  print (AnnotationsSaved (output_file s)).

(** *** The session *)

(** What the window delivers to the callbacks registered in
    [setup_display]. *)
Inductive event : Type :=
| ClickPrevious
| ClickNext
| ClickSave
| Select (eclick erelease : num * num).

Definition dispatch (ev : event) : M unit :=
  match ev with
  | ClickPrevious => previous_image
  | ClickNext => next_image
  | ClickSave => save_annotations
  | Select eclick erelease => on_select eclick erelease
  end.

(** The events that draw a rectangle. *)
Definition draws (ev : event) : bool :=
  match ev with
  | Select _ _ => true
  | _ => false
  end.

(** [plt.show()]: the events are handled in turn until the window closes. *)
Fixpoint show (events : list event) : M unit :=
  match events with
  | [] => ret tt
  | ev :: events' => dispatch ev ;; show events'
  end.

(** The widgets that [setup_display] creates are the callbacks of
    [dispatch]; what is left is the first rendering. *)
Definition setup_display : M unit := load_current_image.

Definition start_labeling (events : list event) : M unit :=
  scan_directory ;;
  setup_display ;;
  show events.

(** [main], after the arguments are parsed. *)
Definition main (input output : path) (events : list event) : M unit :=
  init input output ;;
  start_labeling events.

(** The exit status of the process: an uncaught exception ends it with 1,
    [sys.exit(code)] with [code]. *)
Definition exit_status {A : Type} (r : result A) : Z :=
  match r with
  | Ok _ => 0
  | Raise (SystemExit code) => code
  | Raise _ => 1
  end.

(** The world a run starts in, and the labeler before [__init__]. *)
Definition boot (tree : entry) (output : option (list row)) : State :=
  ({| input_dir := []; output_file := []; dicom_files := [];
      current_index := 0; annotations := Dict.empty;
      existing_annotations := Dict.empty |},
   {| fs_tree := tree; fs_output := output; stdout := []; canvas := blank |}).

Definition run_main (input output : path) (tree : entry)
  (file : option (list row)) (events : list event) : Z * World :=
  let '(r, (_, w)) := main input output events (boot tree file) in
  (exit_status r, w).

(** The index is a position in the file list. *)
Definition index_ok (s : Labeler) : Prop :=
  0 <= current_index s < len (dicom_files s).

(** *** Notions used by the statements *)

(** The rows [save_annotations] leaves in the output file. *)
Definition saved_rows (s : Labeler) : list row :=
  header ::
  map annotation_row (Dict.merge (existing_annotations s) (annotations s)).

(** The file name of a row. *)
Definition filename_of (r : row) : string := nth 0 r "".

(** A layer [d] only repeats what the layer [e] holds. *)
Definition repeats (e d : Dict.t Annotation) : Prop :=
  forall k ann, In (k, ann) d -> Dict.get e k = Some ann.

(** What a rendering may change: the new layer may take over, for one file,
    the annotation of the existing layer. *)
Definition preloaded (s s' : Labeler) : Prop :=
  annotations s' = annotations s \/
  exists k ann,
    Dict.get (existing_annotations s) k = Some ann /\
    annotations s' = Dict.set (annotations s) k ann.

(** The session of a reloaded file, as long as no rectangle is drawn: the
    existing layer is what was loaded, the new layer only repeats it, and
    the output file holds the loaded rows. *)
Definition reloaded (e : Dict.t Annotation) (st : State) : Prop :=
  index_ok (fst st) /\
  existing_annotations (fst st) = e /\
  repeats e (annotations (fst st)) /\
  fs_output (snd st) = Some (header :: map annotation_row e).

End Program.

(** ** Notions used by the further properties *)

Section MoreNotions.
Context {F : PyFloat}.

(** A computation that leaves the output file as it is, however it ends. *)
Definition keeps_output {A : Type} (c : M A) : Prop :=
  forall st : State, fs_output (snd (snd (c st))) = fs_output (snd st).

(** The axes show at most one outline, and it is the annotation that the
    new layer holds for the current file. *)
Definition outline_ok (st : State) : Prop :=
  forall f : path,
    py_getitem (dicom_files (fst st)) (current_index (fst st)) = Ok f ->
    patches (canvas (snd st)) = [] \/
    exists ann : Annotation,
      patches (canvas (snd st)) = [ann] /\
      Dict.get (annotations (fst st)) (name f) = Some ann.



(** The annotation a row of at least 5 fields is read as. *)
Definition row_annotation (r : row) : option Annotation :=
  match py_float (nth 1 r ""), py_float (nth 2 r ""),
        py_float (nth 3 r ""), py_float (nth 4 r "") with
  | Some vx, Some vy, Some vw, Some vh =>
      Some {| x := vx; y := vy; width := vw; height := vh |}
  | _, _, _, _ => None
  end.

(** The rectangle [on_select] makes of two corner points. *)
Definition rectangle (eclick erelease : num * num) : Annotation :=
  {| x := py_min (fst eclick) (fst erelease);
     y := py_min (snd eclick) (snd erelease);
     width := num_abs (num_sub (fst erelease) (fst eclick));
     height := num_abs (num_sub (snd erelease) (snd eclick)) |}.

End MoreNotions.

(** The integers from [1] to [n]. *)
Definition Z_upto (n : nat) : list Z := map Z.of_nat (seq 1 n).

(** ** A session on the integer-valued floats *)

(** A directory with two DICOM files, one PNG file and a text file; the
    first DICOM file decodes to a black 2x2 array, the second does not
    decode at all. *)
Definition demo_tree : entry :=
  Dir "scans"
    [File "a.dcm"; Dir "old" [File "b.dcm"; File "c.png"]; File "notes.txt"].

Definition demo_pictures : entry := Dir "scans" [File "c.png"; File "d.jpg"].

Definition demo_notes : entry :=
  Dir "notes" [File "readme.txt"; Dir "sub" [File "data.csv"]].

#[export] Instance demo_decoders : Decoders := {|
  dcmread_pixel_array := fun f =>
    if String.eqb (name f) "a.dcm" then Some [[0; 0]; [0; 0]] else None;
  cv2_imread := fun f =>
    if String.eqb (name f) "c.png" then Some [[0; 128]; [255; 64]] else None
|}.

Definition demo_labeler : Labeler := {|
  input_dir := ["scans"];
  output_file := ["labels.csv"];
  dicom_files := [["scans"; "a.dcm"]; ["scans"; "old"; "b.dcm"]];
  current_index := 1;
  annotations :=
    [("b.dcm", {| x := 4; y := 5; width := 6; height := 7 |})];
  existing_annotations :=
    [("a.dcm", {| x := 10; y := 20; width := 30; height := 40 |});
     ("b.dcm", {| x := 1; y := 2; width := 3; height := 4 |})]
|}.

Definition demo_world : World := {|
  fs_tree := demo_tree;
  fs_output := None;
  stdout := [];
  canvas := blank
|}.

(** ** Python floats as IEEE binary64

    The coordinates that matplotlib hands to [on_select] are binary64
    values; [<], [-] and [abs] on them are the IEEE operations.  The text
    conversions of this instance follow Python on NaN, the infinities, the
    zeros and the integers below 10^16 (["nan"], ["inf"], ["-0.0"],
    ["12.0"]); no other value is printed or read by a statement below. *)









(** Unfolding the monad. *)
Ltac run :=
  unfold bind, ret, lift, raise, get_self, get_world, modify_self,
    modify_world, modify_canvas, print; simpl.

(** * Facts *)

(** ** Dictionaries *)

Module DictFacts.
Import Dict.
Section Facts.
Context {V : Type}.
Implicit Types (d other a b : Dict.t V) (k : string) (v : V).

Lemma get_set_eq d k v : get (set d k v) k = Some v.
Proof.
  induction d as [|[k' v'] d IH]; simpl.
  - now rewrite String.eqb_refl.
  - destruct (String.eqb k' k) eqn:E; simpl; rewrite E; auto.
Qed.

Lemma get_set_neq d k k' v : k <> k' -> get (set d k v) k' = get d k'.
Proof.
  intros Hne. induction d as [|[k0 v0] d IH]; simpl.
  - destruct (String.eqb_spec k k'); congruence.
  - destruct (String.eqb_spec k0 k) as [->|Hk]; simpl.
    + destruct (String.eqb_spec k k'); congruence.
    + destruct (String.eqb_spec k0 k'); auto.
Qed.

Lemma get_None d k : get d k = None <-> ~ In k (keys d).
Proof.
  induction d as [|[k' v'] d IH]; simpl.
  - tauto.
  - destruct (String.eqb_spec k' k) as [->|Hk].
    + split; [discriminate | tauto].
    + rewrite IH. tauto.
Qed.

Lemma get_Some_keys d k v : get d k = Some v -> In k (keys d).
Proof.
  intros H. destruct (in_dec string_dec k (keys d)) as [|Hn]; auto.
  apply get_None in Hn. congruence.
Qed.

Lemma get_Some_In d k v : get d k = Some v -> In (k, v) d.
Proof.
  induction d as [|[k' v'] d IH]; simpl; [discriminate|].
  destruct (String.eqb_spec k' k) as [->|Hk].
  - intros [= ->]. now left.
  - intros H. right. auto.
Qed.

Lemma In_get d k v : wf d -> In (k, v) d -> get d k = Some v.
Proof.
  unfold wf. induction d as [|[k' v'] d IH]; simpl; [tauto|].
  intros Hnd [[= -> ->]|Hin].
  - now rewrite String.eqb_refl.
  - inversion Hnd as [|? ? Hnot Hnd']; subst.
    destruct (String.eqb_spec k' k) as [->|Hk].
    + exfalso. apply Hnot. change k with (fst (k, v)). now apply in_map.
    + auto.
Qed.

Lemma set_absent d k v : get d k = None -> set d k v = d ++ [(k, v)].
Proof.
  induction d as [|[k' v'] d IH]; simpl; auto.
  destruct (String.eqb k' k); [discriminate|].
  intros H. now rewrite IH.
Qed.

Lemma set_same d k v : get d k = Some v -> set d k v = d.
Proof.
  induction d as [|[k' v'] d IH]; simpl; [discriminate|].
  destruct (String.eqb k' k).
  - now intros [= ->].
  - intros H. now rewrite IH.
Qed.

Lemma keys_set_present d k v :
  In k (keys d) -> keys (set d k v) = keys d.
Proof.
  induction d as [|[k' v'] d IH]; simpl; [tauto|].
  destruct (String.eqb_spec k' k) as [->|Hk]; simpl; auto.
  intros [?|Hin]; [congruence|]. now rewrite IH.
Qed.

Lemma keys_set_In d k v k' :
  In k' (keys (set d k v)) <-> In k' (keys d) \/ k' = k.
Proof.
  destruct (in_dec string_dec k (keys d)) as [Hin|Hn].
  - rewrite keys_set_present by auto. split; [tauto|].
    intros [?| ->]; auto.
  - apply get_None in Hn. rewrite set_absent by auto.
    unfold keys. rewrite map_app, in_app_iff. simpl. intuition.
Qed.

Lemma wf_set d k v : wf d -> wf (set d k v).
Proof.
  unfold wf. intros Hd.
  destruct (in_dec string_dec k (keys d)) as [Hin|Hn].
  - now rewrite keys_set_present.
  - pose proof Hn as Hg. apply get_None in Hg.
    rewrite set_absent by auto. unfold keys. rewrite map_app. simpl.
    apply NoDup_app; auto.
    + constructor; [tauto | constructor].
    + intros a Ha [<-|[]]. contradiction.
Qed.

Lemma wf_update d other : wf d -> wf (update d other).
Proof.
  unfold update. revert d.
  induction other as [|[k v] other IH]; simpl; auto using wf_set.
Qed.

Lemma keys_update_In d other k :
  In k (keys (update d other)) <-> In k (keys d) \/ In k (keys other).
Proof.
  unfold update. revert d.
  induction other as [|[k0 v0] other IH]; simpl; intros d.
  - tauto.
  - rewrite IH, keys_set_In. intuition.
Qed.

(** Reading an updated dict: the other dict answers first. *)
Lemma get_update d other k :
  wf other ->
  get (update d other) k =
  match get other k with Some v => Some v | None => get d k end.
Proof.
  unfold update, wf. revert d.
  induction other as [|[k0 v0] other IH]; simpl; intros d Hnd; auto.
  inversion Hnd as [|? ? Hnot Hnd']; subst.
  rewrite IH by auto.
  destruct (String.eqb_spec k0 k) as [->|Hk].
  - apply get_None in Hnot. rewrite Hnot. apply get_set_eq.
  - destruct (get other k); auto using get_set_neq.
Qed.

Lemma update_append d other : wf (d ++ other) -> update d other = d ++ other.
Proof.
  unfold update, wf. revert d.
  induction other as [|[k v] other IH]; simpl; intros d Hnd.
  - now rewrite app_nil_r.
  - assert (Hk : get d k = None).
    { apply get_None. intros Hin. unfold keys in Hnd.
      rewrite map_app in Hnd. simpl in Hnd.
      apply NoDup_remove_2 in Hnd. apply Hnd, in_or_app. now left. }
    rewrite set_absent by auto. rewrite IH.
    + now rewrite <- app_assoc.
    + now rewrite <- app_assoc.
Qed.

Lemma update_empty d : wf d -> update empty d = d.
Proof. intros Hd. now apply (update_append []). Qed.

(** Updating with bindings the dict already has changes nothing. *)
Lemma update_agree d other :
  (forall k v, In (k, v) other -> get d k = Some v) -> update d other = d.
Proof.
  unfold update. induction other as [|[k v] other IH]; simpl; intros H; auto.
  rewrite set_same by (apply H; now left). apply IH. intros; apply H; auto.
Qed.

Lemma wf_merge a b : wf (merge a b).
Proof. unfold merge. apply wf_update, wf_update. constructor. Qed.

Lemma merge_wf_l a b : wf a -> merge a b = update a b.
Proof. intros Ha. unfold merge. now rewrite update_empty. Qed.

Lemma get_merge a b k :
  wf a -> wf b ->
  get (merge a b) k =
  match get b k with Some v => Some v | None => get a k end.
Proof. intros Ha Hb. rewrite merge_wf_l by auto. now apply get_update. Qed.

Lemma keys_merge_In a b k :
  In k (keys (merge a b)) <-> In k (keys a) \/ In k (keys b).
Proof.
  unfold merge. rewrite !keys_update_In. simpl. tauto.
Qed.

Lemma In_set d k v kv : In kv (set d k v) -> kv = (k, v) \/ In kv d.
Proof.
  induction d as [|[k' v'] d IH]; simpl.
  - intros [<-|[]]. now left.
  - destruct (String.eqb_spec k' k) as [->|Hk]; simpl.
    + intros [<-|Hin]; auto.
    + intros [<-|Hin]; auto. destruct (IH Hin); auto.
Qed.

End Facts.
End DictFacts.

(** ** Running the methods *)

Section SaveFacts.
Context {F : PyFloat}.

Lemma writerows_run (items : list (string * Annotation)) :
  forall (s : Labeler) (w : World) (rows : list row),
    fs_output w = Some rows ->
    writerows items (s, w) =
    (Ok tt, (s, set_fs_output (Some (rows ++ map annotation_row items)) w)).
Proof.
  induction items as [|item items IH]; intros s w rows Hw; simpl.
  - rewrite app_nil_r, <- Hw. now destruct w.
  - unfold writerow. run. rewrite Hw.
    rewrite (IH s _ (rows ++ [annotation_row item])) by reflexivity.
    unfold set_fs_output; simpl. now rewrite <- app_assoc.
Qed.

Lemma save_annotations_run (s : Labeler) (w : World) :
  save_annotations (s, w) =
  (Ok tt,
   (s, {| fs_tree := fs_tree w; fs_output := Some (saved_rows s);
          stdout := stdout w ++ [AnnotationsSaved (output_file s)];
          canvas := canvas w |})).
Proof.
  unfold save_annotations, writerow. run.
  erewrite writerows_run by reflexivity. reflexivity.
Qed.

Lemma annotation_row_filename (item : string * Annotation) :
  nth 0 (annotation_row item) "" = fst item.
Proof. now destruct item. Qed.

End SaveFacts.

Section LoadFacts.
Context {F : PyFloat}.

Lemma load_row_short (existing : Dict.t Annotation) (r : row) :
  (List.length r < 5)%nat -> load_row existing r = Ok existing.
Proof.
  intros H. unfold load_row.
  destruct (Z.leb_spec 5 (Z.of_nat (List.length r))); [lia | reflexivity].
Qed.

Lemma load_row_long (existing : Dict.t Annotation) (r : row)
  (vx vy vw vh : num) :
  (5 <= List.length r)%nat ->
  py_float (nth 1 r "") = Some vx ->
  py_float (nth 2 r "") = Some vy ->
  py_float (nth 3 r "") = Some vw ->
  py_float (nth 4 r "") = Some vh ->
  load_row existing r =
  Ok (Dict.set existing (nth 0 r "")
        {| x := vx; y := vy; width := vw; height := vh |}).
Proof.
  intros H Hx Hy Hw Hh. unfold load_row, float.
  destruct (Z.leb_spec 5 (Z.of_nat (List.length r))); [|lia].
  now rewrite Hx, Hy, Hw, Hh.
Qed.

Lemma load_row_not_a_number (existing : Dict.t Annotation) (r : row) :
  (5 <= List.length r)%nat ->
  (exists i, (1 <= i <= 4)%nat /\ py_float (nth i r "") = None) ->
  load_row existing r = Raise ValueError.
Proof.
  intros H (i & Hi & Hnone). unfold load_row, float.
  destruct (Z.leb_spec 5 (Z.of_nat (List.length r))); [|lia].
  assert (Hc : (i = 1 \/ i = 2 \/ i = 3 \/ i = 4)%nat) by lia.
  destruct (py_float (nth 1 r "")) eqn:E1;
    [|reflexivity].
  destruct (py_float (nth 2 r "")) eqn:E2;
    [|reflexivity].
  destruct (py_float (nth 3 r "")) eqn:E3;
    [|reflexivity].
  destruct (py_float (nth 4 r "")) eqn:E4;
    [|reflexivity].
  destruct Hc as [->|[->|[->| ->]]]; congruence.
Qed.

Lemma load_rows_filter (rows : list row) :
  forall existing : Dict.t Annotation,
    load_rows existing rows =
    load_rows existing
      (filter (fun r => (5 <=? List.length r)%nat) rows).
Proof.
  induction rows as [|r rows IH]; intros existing; [reflexivity|].
  cbn [filter load_rows].
  destruct (Nat.leb_spec 5 (List.length r)) as [Hlong|Hshort].
  - cbn [load_rows]. destruct (load_row existing r); auto.
  - rewrite load_row_short by lia. apply IH.
Qed.

Lemma load_rows_all_short (rows : list row) (existing : Dict.t Annotation) :
  Forall (fun r => (List.length r < 5)%nat) rows ->
  load_rows existing rows = Ok existing.
Proof.
  intros Hall. revert existing.
  induction Hall as [|r rows Hr _ IH]; intros existing; simpl; auto.
  rewrite load_row_short by auto. apply IH.
Qed.

(** Rows that [save_annotations] wrote are read back as the items they were
    written from, where text written from a number reads back as it. *)
Lemma load_rows_saved
  (float_str : forall v : num, py_float (py_str v) = Some v)
  (items : list (string * Annotation)) :
  forall existing : Dict.t Annotation,
    Dict.wf (existing ++ items) ->
    load_rows existing (map annotation_row items) = Ok (existing ++ items).
Proof.
  induction items as [|[k a] items IH]; intros existing Hwf; simpl.
  - now rewrite app_nil_r.
  - unfold load_row, float. simpl. rewrite !float_str.
    assert (Hk : Dict.get existing k = None).
    { apply DictFacts.get_None. intros Hin. unfold Dict.wf, Dict.keys in Hwf.
      rewrite map_app in Hwf. simpl in Hwf.
      apply NoDup_remove_2 in Hwf. apply Hwf, in_or_app. now left. }
    rewrite DictFacts.set_absent by auto.
    destruct a as [ax ay aw ah]; simpl.
    rewrite IH; rewrite <- app_assoc; auto.
Qed.

Lemma init_missing_file (input output : path) (s : Labeler) (w : World) :
  fs_output w = None ->
  init input output (s, w) =
  (Ok tt,
   ({| input_dir := input; output_file := output; dicom_files := [];
       current_index := 0; annotations := Dict.empty;
       existing_annotations := Dict.empty |}, w)).
Proof. intros H. unfold init, load_existing_annotations. run. now rewrite H. Qed.

Lemma init_empty_file (input output : path) (s : Labeler) (w : World) :
  fs_output w = Some [] ->
  init input output (s, w) =
  (Raise StopIteration,
   ({| input_dir := input; output_file := output; dicom_files := [];
       current_index := 0; annotations := Dict.empty;
       existing_annotations := Dict.empty |}, w)).
Proof. intros H. unfold init, load_existing_annotations. run. now rewrite H. Qed.

Lemma init_rows (input output : path) (s : Labeler) (w : World)
  (headers : row) (data : list row) :
  fs_output w = Some (headers :: data) ->
  init input output (s, w) =
  match load_rows Dict.empty data with
  | Ok existing =>
      (Ok tt,
       ({| input_dir := input; output_file := output; dicom_files := [];
           current_index := 0; annotations := Dict.empty;
           existing_annotations := existing |}, w))
  | Raise e =>
      (Raise e,
       ({| input_dir := input; output_file := output; dicom_files := [];
           current_index := 0; annotations := Dict.empty;
           existing_annotations := Dict.empty |}, w))
  end.
Proof.
  intros H. unfold init, load_existing_annotations. run. rewrite H.
  now destruct (load_rows Dict.empty data).
Qed.

(** [__init__] touches nothing outside the object. *)
Lemma init_world (input output : path) (st : State) :
  snd (snd (init input output st)) = snd st.
Proof.
  destruct st as [s w]. unfold init, load_existing_annotations. run.
  destruct (fs_output w) as [[|h data]|]; simpl; auto.
  now destruct (load_rows _ data).
Qed.

End LoadFacts.

(** ** The directory scan *)

Lemma entry_nested_ind (P : entry -> Prop) :
  (forall n, P (File n)) ->
  (forall n children, Forall P children -> P (Dir n children)) ->
  forall e, P e.
Proof.
  intros HF HD. fix IH 1. intros [n|n children].
  - apply HF.
  - apply HD. induction children as [|c children IHc]; constructor.
    + apply IH.
    + apply IHc.
Qed.

Lemma name_snoc (here : path) (n : string) : name (here ++ [n]) = n.
Proof. unfold name. apply last_last. Qed.

(** Every path a glob yields has a name that ends in the extension. *)
Lemma glob_rec_names (ext : string) (e : entry) :
  forall (here p : path),
    In p (glob_rec ext here e) -> ends_with (name p) ext = true.
Proof.
  induction e as [n|n children IH] using entry_nested_ind;
    intros here p; simpl; [tauto|].
  rewrite in_app_iff, in_map_iff, in_flat_map.
  intros [(c & <- & Hc)|(c & Hin & Hp)].
  - apply filter_In in Hc. now rewrite name_snoc.
  - rewrite Forall_forall in IH. eapply IH; eauto.
Qed.

(** A name has one ending: three distinct extensions of the same length
    cannot match the same name. *)
Lemma ends_with_exclusive (s ext1 ext2 : string) :
  String.length ext1 = String.length ext2 ->
  ext1 <> ext2 ->
  ends_with s ext1 = true -> ends_with s ext2 = false.
Proof.
  unfold ends_with. intros Hlen Hne H1.
  apply andb_true_iff in H1 as [_ H1]. apply String.eqb_eq in H1.
  rewrite <- Hlen. apply andb_false_iff. right.
  apply String.eqb_neq. congruence.
Qed.

Section ScanFacts.
Context {F : PyFloat}.

Lemma scan_directory_dicom (s : Labeler) (w : World) (p : path)
  (rest : list path) :
  glob_rec ".dcm" (input_dir s) (fs_tree w) = p :: rest ->
  scan_directory (s, w) =
  (Ok tt,
   (set_dicom_files (p :: rest) s,
    {| fs_tree := fs_tree w; fs_output := fs_output w;
       stdout := stdout w ++ [FoundDicom (len (p :: rest))];
       canvas := canvas w |})).
Proof. intros H. unfold scan_directory, glob. run. now rewrite H. Qed.

Lemma scan_directory_fallback (s : Labeler) (w : World) (p : path)
  (rest : list path) :
  glob_rec ".dcm" (input_dir s) (fs_tree w) = [] ->
  glob_rec ".jpg" (input_dir s) (fs_tree w)
    ++ glob_rec ".png" (input_dir s) (fs_tree w) = p :: rest ->
  scan_directory (s, w) =
  (Ok tt,
   (set_dicom_files (p :: rest) s,
    {| fs_tree := fs_tree w; fs_output := fs_output w;
       stdout := stdout w ++ [FoundJpgPng (len (p :: rest))];
       canvas := canvas w |})).
Proof.
  intros Hd Hi. unfold scan_directory, glob. run. rewrite Hd. simpl.
  now rewrite Hi.
Qed.

Lemma scan_directory_nothing (s : Labeler) (w : World) :
  glob_rec ".dcm" (input_dir s) (fs_tree w) = [] ->
  glob_rec ".jpg" (input_dir s) (fs_tree w) = [] ->
  glob_rec ".png" (input_dir s) (fs_tree w) = [] ->
  scan_directory (s, w) =
  (Raise (SystemExit 1),
   (set_dicom_files [] s,
    {| fs_tree := fs_tree w; fs_output := fs_output w;
       stdout := stdout w ++ [NoFilesFound (input_dir s)];
       canvas := canvas w |})).
Proof.
  intros Hd Hj Hp. unfold scan_directory, glob. run. rewrite Hd. simpl.
  now rewrite Hj, Hp.
Qed.

End ScanFacts.

(** ** The viewer *)

Lemma py_getitem_in_range {A : Type} (l : list A) (i : Z) :
  0 <= i < Z.of_nat (List.length l) ->
  exists a, py_getitem l i = Ok a /\ nth_error l (Z.to_nat i) = Some a.
Proof.
  intros H. unfold py_getitem.
  destruct (Z.ltb_spec i 0); [lia|].
  destruct (Z.leb_spec 0 i); [|lia].
  destruct (Z.ltb_spec i (Z.of_nat (List.length l))); [|lia]. simpl.
  destruct (nth_error l (Z.to_nat i)) as [a|] eqn:E; eauto.
  apply nth_error_None in E. lia.
Qed.

Section ViewerFacts.
Context {F : PyFloat} {D : Decoders}.

Lemma index_ok_getitem (s : Labeler) :
  index_ok s ->
  exists f, py_getitem (dicom_files s) (current_index s) = Ok f.
Proof.
  intros H. destruct (py_getitem_in_range (dicom_files s) (current_index s) H)
    as (f & Hf & _). eauto.
Qed.

Lemma index_ok_nonempty (s : Labeler) : index_ok s -> dicom_files s <> [].
Proof.
  unfold index_ok, len. intros H E. rewrite E in H. simpl in H. lia.
Qed.

(** The patch list after [draw_annotations]. *)
Lemma draw_annotations_run (s : Labeler) (w : World) (f : path) :
  py_getitem (dicom_files s) (current_index s) = Ok f ->
  draw_annotations (s, w) =
  (Ok tt,
   (s, set_canvas
         {| picture := picture (canvas w); title := title (canvas w);
            patches := match Dict.get (annotations s) (name f) with
                       | Some ann => [ann]
                       | None => []
                       end;
            error_text := error_text (canvas w) |} w)).
Proof.
  intros Hf. unfold draw_annotations. run. rewrite Hf. simpl.
  now destruct (Dict.get (annotations s) (name f)).
Qed.

Lemma on_select_run (s : Labeler) (w : World) (f : path)
  (x1 y1 x2 y2 : num) :
  py_getitem (dicom_files s) (current_index s) = Ok f ->
  let ann := {| x := py_min x1 x2; y := py_min y1 y2;
                width := num_abs (num_sub x2 x1);
                height := num_abs (num_sub y2 y1) |} in
  on_select (x1, y1) (x2, y2) (s, w) =
  (Ok tt,
   (set_annotations (Dict.set (annotations s) (name f) ann) s,
    set_canvas
      {| picture := picture (canvas w); title := title (canvas w);
         patches := [ann]; error_text := error_text (canvas w) |} w)).
Proof.
  intros Hf ann. unfold on_select. run. rewrite Hf. simpl.
  erewrite draw_annotations_run by (simpl; eauto). simpl.
  now rewrite DictFacts.get_set_eq.
Qed.

(** What a rendering leaves behind, by the outcome of the decode. *)
Lemma load_current_image_run (s : Labeler) (w : World) (f : path) :
  dicom_files s <> [] ->
  py_getitem (dicom_files s) (current_index s) = Ok f ->
  load_current_image (s, w) =
  match read_image f with
  | Ok img =>
      match normalize img with
      | Ok shown =>
          let anns :=
            match Dict.get (existing_annotations s) (name f) with
            | Some ann => Dict.set (annotations s) (name f) ann
            | None => annotations s
            end in
          (Ok tt,
           (set_annotations anns s,
            set_canvas
              {| picture := Some shown;
                 title := Some (name f, current_index s + 1,
                                len (dicom_files s));
                 patches := match Dict.get anns (name f) with
                            | Some ann => [ann]
                            | None => []
                            end;
                 error_text := false |} w))
      | Raise _ =>
          (Ok tt,
           (s, {| fs_tree := fs_tree w; fs_output := fs_output w;
                  stdout := stdout w ++ [ErrorReadingFile f];
                  canvas := {| picture := None; title := None; patches := [];
                               error_text := true |} |}))
      end
  | Raise _ =>
      (Ok tt,
       (s, {| fs_tree := fs_tree w; fs_output := fs_output w;
              stdout := stdout w ++ [ErrorReadingFile f];
              canvas := {| picture := None; title := None; patches := [];
                           error_text := true |} |}))
  end.
Proof.
  intros Hne Hf. unfold load_current_image at 1. run.
  destruct (dicom_files s) as [|p0 rest] eqn:Efiles; [congruence|].
  rewrite Hf. unfold try_except. simpl.
  destruct (read_image f) as [img|e] eqn:Eimg; simpl.
  - destruct (normalize img) as [shown|e] eqn:Enorm; simpl.
    + destruct (Dict.get (existing_annotations s) (name f)) as [ann|] eqn:Eex;
        simpl.
      * erewrite draw_annotations_run
          by (simpl; rewrite Efiles; exact Hf). simpl.
        destruct s; simpl in *. rewrite Efiles. reflexivity.
      * erewrite draw_annotations_run by (rewrite Efiles; exact Hf). simpl.
        destruct s; simpl in *. rewrite Efiles. reflexivity.
    + unfold normalize in Enorm. unfold image_max in Enorm.
      destruct (List.concat img); [|discriminate].
      injection Enorm as <-. reflexivity.
  - unfold read_image in Eimg.
    destruct (dcmread_pixel_array f); [discriminate|].
    destruct (cv2_imread f); [discriminate|].
    injection Eimg as <-. reflexivity.
Qed.

End ViewerFacts.

(** * The claims *)

Section StoreClaims.
Context {F : PyFloat} {D : Decoders}.

(** C1.  Saving writes the header and then one row per file name of the
    merged map [{**existing, **new}]: the file names of the rows are the keys
    of the merge, without repetition, and are the names of either layer; a
    row is the file name followed by the text of [x], [y], [width] and
    [height] of an annotation, which is the new layer's annotation when the
    file name is in the new layer, and the existing layer's only when the
    file name is absent from the new layer. *)
Theorem save_writes_merged_layers (s : Labeler) (w : World) :
  Dict.wf (existing_annotations s) ->
  Dict.wf (annotations s) ->
  exists data : list row,
    fs_output (snd (snd (save_annotations (s, w)))) = Some (header :: data) /\
    map filename_of data =
      Dict.keys (Dict.merge (existing_annotations s) (annotations s)) /\
    NoDup (map filename_of data) /\
    (forall k, In k (map filename_of data) <->
               In k (Dict.keys (existing_annotations s)) \/
               In k (Dict.keys (annotations s))) /\
    (forall r, In r data ->
       match Dict.get (annotations s) (filename_of r) with
       | Some ann =>
           r = [filename_of r; py_str (x ann); py_str (y ann);
                py_str (width ann); py_str (height ann)]
       | None =>
           exists ann,
             Dict.get (existing_annotations s) (filename_of r) = Some ann /\
             r = [filename_of r; py_str (x ann); py_str (y ann);
                  py_str (width ann); py_str (height ann)]
       end).
Proof.
  intros He Hn. rewrite save_annotations_run. simpl.
  set (merged := Dict.merge (existing_annotations s) (annotations s)).
  exists (map annotation_row merged).
  assert (Hnames : map filename_of (map annotation_row merged)
                   = Dict.keys merged).
  { unfold Dict.keys. rewrite map_map. apply map_ext.
    intros item. apply annotation_row_filename. }
  split; [reflexivity|]. split; [exact Hnames|].
  split; [rewrite Hnames; apply DictFacts.wf_merge|].
  split.
  - intros k. rewrite Hnames. apply DictFacts.keys_merge_In.
  - intros r Hr. apply in_map_iff in Hr as ([k ann] & <- & Hin).
    unfold filename_of. rewrite annotation_row_filename. simpl fst.
    apply DictFacts.In_get in Hin; [|apply DictFacts.wf_merge].
    unfold merged in Hin. rewrite DictFacts.get_merge in Hin by auto.
    destruct (Dict.get (annotations s) k) as [new|].
    + now injection Hin as ->.
    + eauto.
Qed.

(** C8.  Saving twice in a row: both calls return, neither changes the
    labeler (so neither annotation layer), and the second call leaves in the
    output file exactly the rows the first one left. *)
Theorem save_twice_same_file (s : Labeler) (w : World) :
  let first := save_annotations (s, w) in
  let second := save_annotations (snd first) in
  fst first = Ok tt /\ fst second = Ok tt /\
  fst (snd first) = s /\ fst (snd second) = s /\
  fs_output (snd (snd first)) = Some (saved_rows s) /\
  fs_output (snd (snd second)) = fs_output (snd (snd first)).
Proof.
  cbv zeta. rewrite save_annotations_run. cbn [fst snd].
  rewrite save_annotations_run. cbn [fst snd fs_output]. repeat split.
Qed.

(** C10.  An output file that exists and has no row at all: [__init__] raises
    [StopIteration] when it reads the header, the program ends with status 1
    before anything is scanned, printed or written; when the file is missing
    [__init__] returns with an empty existing layer. *)
Theorem empty_output_file_stops_startup
  (input output : path) (tree : entry) (events : list event) :
  (exists st,
     init input output (boot tree (Some [])) = (Raise StopIteration, st)) /\
  run_main input output tree (Some []) events
    = (1, snd (boot tree (Some []))) /\
  (exists s,
     init input output (boot tree None) = (Ok tt, (s, snd (boot tree None)))
     /\ existing_annotations s = Dict.empty).
Proof.
  split; [|split].
  - eexists. apply init_empty_file. reflexivity.
  - unfold run_main, main, bind, boot.
    rewrite (init_empty_file input output) by reflexivity. reflexivity.
  - eexists. split; [apply init_missing_file; reflexivity|reflexivity].
Qed.

End StoreClaims.

Section LoadClaims.
Context {F : PyFloat}.

(** C6 (amended).  Loading skips every data row with fewer than 5 fields
    without raising and without touching the existing layer, in any file: the
    outcome of a load is the outcome on the rows with at least 5 fields.  A
    row with at least 5 fields is stored under its first field when its
    second to fifth fields are text of numbers; when one of them is not,
    loading raises [ValueError]. *)
Theorem load_skips_short_rows :
  (forall (existing : Dict.t Annotation) (r : row),
     (List.length r < 5)%nat -> load_row existing r = Ok existing) /\
  (forall (existing : Dict.t Annotation) (rows : list row),
     load_rows existing rows =
     load_rows existing (filter (fun r => (5 <=? List.length r)%nat) rows)) /\
  (forall (existing : Dict.t Annotation) (r : row) (vx vy vw vh : num),
     (5 <= List.length r)%nat ->
     py_float (nth 1 r "") = Some vx ->
     py_float (nth 2 r "") = Some vy ->
     py_float (nth 3 r "") = Some vw ->
     py_float (nth 4 r "") = Some vh ->
     load_row existing r =
     Ok (Dict.set existing (nth 0 r "")
           {| x := vx; y := vy; width := vw; height := vh |})) /\
  (forall (existing : Dict.t Annotation) (r : row),
     (5 <= List.length r)%nat ->
     (exists i, (1 <= i <= 4)%nat /\ py_float (nth i r "") = None) ->
     load_row existing r = Raise ValueError).
Proof.
  split; [|split; [|split]].
  - apply load_row_short.
  - intros existing rows. apply load_rows_filter.
  - apply load_row_long.
  - apply load_row_not_a_number.
Qed.

End LoadClaims.

Section ScanClaims.
Context {F : PyFloat} {D : Decoders}.

(** C4.  When the recursive search finds a DICOM file, the scan returns with
    the file list equal to the DICOM matches, none of which has a JPEG or PNG
    name.  Only when it finds none does the file list become the JPEG
    matches followed by the PNG matches, none of which has a DICOM name. *)
Theorem scan_directory_dicom_first (s : Labeler) (w : World) :
  let dcm := glob_rec ".dcm" (input_dir s) (fs_tree w) in
  let jpg := glob_rec ".jpg" (input_dir s) (fs_tree w) in
  let png := glob_rec ".png" (input_dir s) (fs_tree w) in
  (dcm <> [] ->
   exists s' w',
     scan_directory (s, w) = (Ok tt, (s', w')) /\
     dicom_files s' = dcm /\
     forall p, In p (dicom_files s') ->
       ends_with (name p) ".dcm" = true /\
       ends_with (name p) ".jpg" = false /\
       ends_with (name p) ".png" = false) /\
  (dcm = [] -> jpg ++ png <> [] ->
   exists s' w',
     scan_directory (s, w) = (Ok tt, (s', w')) /\
     dicom_files s' = jpg ++ png /\
     forall p, In p (dicom_files s') ->
       ends_with (name p) ".dcm" = false /\
       (ends_with (name p) ".jpg" = true \/
        ends_with (name p) ".png" = true)).
Proof.
  cbv zeta. split.
  - intros Hne.
    destruct (glob_rec ".dcm" (input_dir s) (fs_tree w)) as [|p rest] eqn:E;
      [congruence|].
    do 2 eexists. split; [apply (scan_directory_dicom s w p rest E)|].
    split; [reflexivity|]. simpl dicom_files. rewrite <- E.
    intros q Hq. apply glob_rec_names in Hq.
    repeat split; auto;
      apply (ends_with_exclusive (name q) ".dcm"); auto; discriminate.
  - intros Hd Hne.
    destruct (glob_rec ".jpg" (input_dir s) (fs_tree w)
              ++ glob_rec ".png" (input_dir s) (fs_tree w))
      as [|p rest] eqn:E; [congruence|].
    do 2 eexists. split; [apply (scan_directory_fallback s w p rest Hd E)|].
    split; [reflexivity|]. simpl dicom_files. rewrite <- E.
    intros q Hq. apply in_app_iff in Hq as [Hq|Hq];
      apply glob_rec_names in Hq.
    + split; [|now left].
      apply (ends_with_exclusive (name q) ".jpg"); auto; discriminate.
    + split; [|now right].
      apply (ends_with_exclusive (name q) ".png"); auto; discriminate.
Qed.

(** C5.  When neither the DICOM search nor the JPEG/PNG search finds a file,
    [scan_directory] prints that no file was found and raises
    [SystemExit(1)] without touching the output file; the program as a whole
    ends with a status that is not 0 and leaves the output file as it was,
    whatever the window would have delivered, and when [__init__] returned
    the status is 1 and the report is the one line printed. *)
Theorem scan_directory_nothing_found
  (input output : path) (tree : entry) (file : option (list row))
  (events : list event) :
  glob_rec ".dcm" input tree = [] ->
  glob_rec ".jpg" input tree = [] ->
  glob_rec ".png" input tree = [] ->
  (forall (s : Labeler) (w : World),
     input_dir s = input -> fs_tree w = tree ->
     exists s' w',
       scan_directory (s, w) = (Raise (SystemExit 1), (s', w')) /\
       stdout w' = stdout w ++ [NoFilesFound input] /\
       fs_output w' = fs_output w) /\
  fst (run_main input output tree file events) <> 0 /\
  fs_output (snd (run_main input output tree file events)) = file /\
  (fst (init input output (boot tree file)) = Ok tt ->
   fst (run_main input output tree file events) = 1 /\
   stdout (snd (run_main input output tree file events))
     = [NoFilesFound input]).
Proof.
  intros Hd Hj Hp.
  assert (Hscan : forall (s : Labeler) (w : World),
             input_dir s = input -> fs_tree w = tree ->
             scan_directory (s, w) =
             (Raise (SystemExit 1),
              (set_dicom_files [] s,
               {| fs_tree := fs_tree w; fs_output := fs_output w;
                  stdout := stdout w ++ [NoFilesFound (input_dir s)];
                  canvas := canvas w |}))).
  { intros s w <- <-. now apply scan_directory_nothing. }
  split.
  { intros s w Hs Hw. do 2 eexists. split; [now apply Hscan|].
    simpl. now rewrite Hs. }
  unfold run_main, main, start_labeling, bind.
  pose proof (init_world input output (boot tree file)) as Hworld.
  destruct (init input output (boot tree file)) as [[[]|e] [s w]] eqn:Einit;
    simpl in Hworld; subst w.
  - assert (Hin : input_dir s = input).
    { unfold boot, init, load_existing_annotations in Einit. revert Einit. run.
      destruct file as [[|h data]|]; simpl.
      - discriminate.
      - destruct (load_rows Dict.empty data); simpl; [|discriminate].
        now intros [= <-].
      - now intros [= <-]. }
    rewrite Hscan by auto. simpl. rewrite Hin.
    repeat split; auto; discriminate.
  - simpl. repeat split; auto; try discriminate.
    destruct e; simpl; try discriminate.
    exfalso. unfold boot, init, load_existing_annotations in Einit.
    revert Einit. run.
    destruct file as [[|h data]|]; simpl; try discriminate.
    assert (Hno : forall rows (d : Dict.t Annotation) c,
               load_rows d rows <> Raise (SystemExit c)).
    { induction rows as [|r rows IH]; intros d c; simpl; [discriminate|].
      destruct (load_row d r) as [d'|e'] eqn:Er; [apply IH|].
      unfold load_row, float in Er.
      destruct (5 <=? Z.of_nat (List.length r)); [|discriminate].
      repeat match type of Er with
             | context [py_float ?a] => destruct (py_float a)
             end; congruence. }
    destruct (load_rows Dict.empty data) eqn:El; simpl; [discriminate|].
    intros [= -> _]. now apply Hno in El.
Qed.

End ScanClaims.

(** ** Sessions *)

Section SessionFacts.
Context {F : PyFloat} {D : Decoders}.

Lemma load_current_image_spec (s : Labeler) (w : World) :
  index_ok s ->
  exists s' w',
    load_current_image (s, w) = (Ok tt, (s', w')) /\
    dicom_files s' = dicom_files s /\
    current_index s' = current_index s /\
    existing_annotations s' = existing_annotations s /\
    preloaded s s' /\
    fs_output w' = fs_output w.
Proof.
  intros Hok. destruct (index_ok_getitem s Hok) as [f Hf].
  rewrite (load_current_image_run s w f (index_ok_nonempty s Hok) Hf).
  destruct (read_image f) as [img|e].
  - destruct (normalize img) as [shown|e'].
    + do 2 eexists. split; [reflexivity|]. simpl. repeat split.
      unfold preloaded. simpl.
      destruct (Dict.get (existing_annotations s) (name f)) as [ann|] eqn:E;
        eauto.
    + do 2 eexists. split; [reflexivity|]. repeat split. now left.
  - do 2 eexists. split; [reflexivity|]. repeat split. now left.
Qed.

Lemma next_image_spec (s : Labeler) (w : World) :
  index_ok s ->
  exists s' w',
    next_image (s, w) = (Ok tt, (s', w')) /\
    dicom_files s' = dicom_files s /\
    index_ok s' /\
    existing_annotations s' = existing_annotations s /\
    preloaded s s' /\
    fs_output w' = fs_output w.
Proof.
  intros Hok. unfold next_image, bind, get_self, modify_self. cbn [fst snd].
  destruct (Z.ltb_spec (current_index s) (len (dicom_files s) - 1)) as [Hlt|Hge].
  - destruct (load_current_image_spec
                (set_current_index (current_index s + 1) s) w)
      as (s' & w' & Hrun & Hfiles & Hidx & Hex & Hpre & Hout).
    { unfold index_ok in *. simpl. lia. }
    exists s', w'. cbn [fst snd]. rewrite Hrun. repeat split; auto;
      unfold index_ok in *; rewrite ?Hidx, ?Hfiles; simpl; lia.
  - exists s, w. repeat split; auto; try apply Hok. now left.
Qed.

Lemma previous_image_spec (s : Labeler) (w : World) :
  index_ok s ->
  exists s' w',
    previous_image (s, w) = (Ok tt, (s', w')) /\
    dicom_files s' = dicom_files s /\
    index_ok s' /\
    existing_annotations s' = existing_annotations s /\
    preloaded s s' /\
    fs_output w' = fs_output w.
Proof.
  intros Hok. unfold previous_image, bind, get_self, modify_self.
  cbn [fst snd].
  destruct (Z.ltb_spec 0 (current_index s)) as [Hlt|Hge].
  - destruct (load_current_image_spec
                (set_current_index (current_index s - 1) s) w)
      as (s' & w' & Hrun & Hfiles & Hidx & Hex & Hpre & Hout).
    { unfold index_ok in *. simpl. lia. }
    exists s', w'. cbn [fst snd]. rewrite Hrun. repeat split; auto;
      unfold index_ok in *; rewrite ?Hidx, ?Hfiles; simpl; lia.
  - exists s, w. repeat split; auto; try apply Hok. now left.
Qed.

(** Every callback returns and keeps the file list and a valid index. *)
Lemma dispatch_index_ok (ev : event) (s : Labeler) (w : World) :
  index_ok s ->
  exists s' w',
    dispatch ev (s, w) = (Ok tt, (s', w')) /\
    dicom_files s' = dicom_files s /\
    index_ok s'.
Proof.
  intros Hok. destruct ev as [| | |[x1 y1] [x2 y2]]; cbn [dispatch].
  - destruct (previous_image_spec s w Hok) as (s' & w' & H & ? & ? & _).
    eauto.
  - destruct (next_image_spec s w Hok) as (s' & w' & H & ? & ? & _). eauto.
  - rewrite save_annotations_run. eauto.
  - destruct (index_ok_getitem s Hok) as [f Hf].
    rewrite (on_select_run s w f x1 y1 x2 y2 Hf). do 2 eexists.
    split; [reflexivity|]. split; [reflexivity|exact Hok].
Qed.

Lemma show_index_ok (events : list event) :
  forall (s : Labeler) (w : World),
    index_ok s ->
    exists s' w',
      show events (s, w) = (Ok tt, (s', w')) /\
      dicom_files s' = dicom_files s /\
      index_ok s'.
Proof.
  induction events as [|ev events IH]; intros s w Hok; cbn [show].
  - exists s, w. auto.
  - destruct (dispatch_index_ok ev s w Hok) as (s1 & w1 & H1 & Hf1 & Hok1).
    destruct (IH s1 w1 Hok1) as (s2 & w2 & H2 & Hf2 & Hok2).
    exists s2, w2. unfold bind. rewrite H1, H2.
    split; [reflexivity|]. split; [congruence|exact Hok2].
Qed.

(** After a scan that returns, the file list is not empty. *)
Lemma scan_directory_returns (s : Labeler) (w : World) (s' : Labeler)
  (w' : World) :
  scan_directory (s, w) = (Ok tt, (s', w')) ->
  dicom_files s' <> [] /\
  current_index s' = current_index s /\
  annotations s' = annotations s /\
  existing_annotations s' = existing_annotations s /\
  fs_output w' = fs_output w.
Proof.
  unfold scan_directory, glob. run.
  destruct (glob_rec ".dcm" (input_dir s) (fs_tree w)) as [|p rest]; simpl.
  - destruct (glob_rec ".jpg" (input_dir s) (fs_tree w)
              ++ glob_rec ".png" (input_dir s) (fs_tree w)) as [|p rest];
      simpl; [discriminate|].
    intros [= <- <-]. simpl. repeat split. discriminate.
  - intros [= <- <-]. simpl. repeat split. discriminate.
Qed.

(** Both layers stay dicts: each file name is a key at most once. *)
Lemma load_rows_wf (rows : list row) :
  forall existing existing' : Dict.t Annotation,
    Dict.wf existing ->
    load_rows existing rows = Ok existing' -> Dict.wf existing'.
Proof.
  induction rows as [|r rows IH]; intros d d' Hd; simpl.
  - now intros [= <-].
  - destruct (load_row d r) as [d1|e] eqn:Er; [|discriminate].
    apply IH. unfold load_row in Er.
    destruct (5 <=? Z.of_nat (List.length r)); [|now injection Er as <-].
    repeat match type of Er with
           | context [float ?a] => destruct (float a)
           end; try discriminate.
    injection Er as <-. now apply DictFacts.wf_set.
Qed.

Lemma preloaded_wf (s s' : Labeler) :
  Dict.wf (annotations s) -> preloaded s s' -> Dict.wf (annotations s').
Proof.
  intros Hwf [->|(k & ann & _ & ->)]; auto using DictFacts.wf_set.
Qed.

Lemma dispatch_layers_wf (ev : event) (s s' : Labeler) (w w' : World) :
  index_ok s ->
  Dict.wf (annotations s) ->
  dispatch ev (s, w) = (Ok tt, (s', w')) ->
  Dict.wf (annotations s') /\
  existing_annotations s' = existing_annotations s.
Proof.
  intros Hok Hwf. destruct ev as [| | |[x1 y1] [x2 y2]]; cbn [dispatch].
  - destruct (previous_image_spec s w Hok)
      as (s1 & w1 & Hrun & _ & _ & Hex & Hpre & _).
    rewrite Hrun. intros [= <- <-]. eauto using preloaded_wf.
  - destruct (next_image_spec s w Hok)
      as (s1 & w1 & Hrun & _ & _ & Hex & Hpre & _).
    rewrite Hrun. intros [= <- <-]. eauto using preloaded_wf.
  - rewrite save_annotations_run. intros [= <- _]. auto.
  - destruct (index_ok_getitem s Hok) as [f Hf].
    rewrite (on_select_run s w f x1 y1 x2 y2 Hf). intros [= <- _]. simpl.
    split; [now apply DictFacts.wf_set|reflexivity].
Qed.

Lemma show_layers_wf (events : list event) :
  forall (s s' : Labeler) (w w' : World),
    index_ok s ->
    Dict.wf (annotations s) ->
    show events (s, w) = (Ok tt, (s', w')) ->
    Dict.wf (annotations s') /\
    existing_annotations s' = existing_annotations s.
Proof.
  induction events as [|ev events IH]; intros s s' w w' Hok Hwf; cbn [show].
  - intros [= <- _]. auto.
  - unfold bind.
    destruct (dispatch_index_ok ev s w Hok) as (s1 & w1 & H1 & _ & Hok1).
    rewrite H1. intros Hshow.
    destruct (dispatch_layers_wf ev s s1 w w1 Hok Hwf H1) as [Hwf1 Hex1].
    destruct (IH s1 s' w1 w' Hok1 Hwf1 Hshow) as [Hwf' Hex'].
    split; [exact Hwf'|congruence].
Qed.

(** The layers of every session are dicts. *)
Lemma main_layers_wf (input output : path) (events : list event)
  (st : State) (s' : Labeler) (w' : World) :
  main input output events st = (Ok tt, (s', w')) ->
  Dict.wf (existing_annotations s') /\ Dict.wf (annotations s').
Proof.
  destruct st as [s w].
  unfold main, start_labeling, setup_display, bind.
  destruct (init input output (s, w)) as [[[]|e] [s0 w0]] eqn:Einit;
    [|discriminate].
  assert (H0 : current_index s0 = 0 /\ annotations s0 = Dict.empty /\
               Dict.wf (existing_annotations s0)).
  { revert Einit. unfold init, load_existing_annotations. run.
    destruct (fs_output w) as [[|h data]|]; simpl; try discriminate.
    - destruct (load_rows Dict.empty data) as [d|] eqn:El; simpl;
        [|discriminate].
      intros [= <- _]. simpl. repeat split.
      eapply load_rows_wf; [|exact El]. constructor.
    - intros [= <- _]. simpl. repeat split. constructor. }
  destruct H0 as (Hidx0 & Hann0 & Hex0).
  destruct (scan_directory (s0, w0)) as [[[]|e] [s1 w1]] eqn:Escan;
    [|discriminate].
  apply scan_directory_returns in Escan as (Hne1 & Hidx1 & Hann1 & Hex1 & _).
  assert (Hok1 : index_ok s1).
  { unfold index_ok, len. rewrite Hidx1, Hidx0.
    destruct (dicom_files s1); [congruence|simpl; lia]. }
  destruct (load_current_image_spec s1 w1 Hok1)
    as (s2 & w2 & Hrun & Hfiles2 & Hidx2 & Hex2 & Hpre & _).
  rewrite Hrun. intros Hshow.
  assert (Hok2 : index_ok s2).
  { unfold index_ok in *. now rewrite Hidx2, Hfiles2. }
  assert (Hwf2 : Dict.wf (annotations s2)).
  { apply (preloaded_wf s1 s2); [|exact Hpre].
    rewrite Hann1, Hann0. constructor. }
  destruct (show_layers_wf events s2 s' w2 w' Hok2 Hwf2 Hshow) as [Hwf' Hex'].
  split; [|exact Hwf']. congruence.
Qed.

End SessionFacts.

Section ViewerClaims.
Context {F : PyFloat} {D : Decoders}.

(** C7.  With a non-empty file list and an index inside it: Next at the last
    index and Previous at index 0 return with the labeler and the world
    untouched; every callback (Previous, Next, Save, a rectangle selection)
    returns and leaves the same file list and an index inside it; and a
    session that is run from the start to the closing of the window ends
    with an index inside its file list. *)
Theorem navigation_keeps_index_in_range (s : Labeler) (w : World) :
  dicom_files s <> [] ->
  index_ok s ->
  (current_index s = len (dicom_files s) - 1 ->
   next_image (s, w) = (Ok tt, (s, w))) /\
  (current_index s = 0 -> previous_image (s, w) = (Ok tt, (s, w))) /\
  (forall ev : event,
     exists s' w',
       dispatch ev (s, w) = (Ok tt, (s', w')) /\
       dicom_files s' = dicom_files s /\
       0 <= current_index s' < len (dicom_files s')) /\
  (forall (input output : path) (events : list event) (s' : Labeler)
          (w' : World),
     main input output events (s, w) = (Ok tt, (s', w')) ->
     dicom_files s' <> [] /\
     0 <= current_index s' < len (dicom_files s')).
Proof.
  intros Hne Hok. split; [|split; [|split]].
  - intros Hlast. unfold next_image. run.
    destruct (Z.ltb_spec (current_index s) (len (dicom_files s) - 1));
      [lia|reflexivity].
  - intros Hfirst. unfold previous_image. run.
    destruct (Z.ltb_spec 0 (current_index s)); [lia|reflexivity].
  - intros ev. destruct (dispatch_index_ok ev s w Hok) as (s' & w' & H).
    exists s', w'. exact H.
  - intros input output events s' w'.
    unfold main, start_labeling, setup_display, bind.
    destruct (init input output (s, w)) as [[[]|e] [s0 w0]] eqn:Einit;
      [|discriminate].
    assert (Hidx0 : current_index s0 = 0).
    { revert Einit. unfold init, load_existing_annotations. run.
      destruct (fs_output w) as [[|h data]|]; simpl; try discriminate.
      - destruct (load_rows Dict.empty data); simpl; [|discriminate].
        now intros [= <- _].
      - now intros [= <- _]. }
    destruct (scan_directory (s0, w0)) as [[[]|e] [s1 w1]] eqn:Escan;
      [|discriminate].
    apply scan_directory_returns in Escan as (Hne1 & Hidx1 & _).
    assert (Hok1 : index_ok s1).
    { unfold index_ok, len. rewrite Hidx1, Hidx0.
      destruct (dicom_files s1); [congruence|simpl; lia]. }
    destruct (load_current_image_spec s1 w1 Hok1)
      as (s2 & w2 & Hrun & Hfiles2 & Hidx2 & _).
    rewrite Hrun.
    assert (Hok2 : index_ok s2).
    { unfold index_ok in *. now rewrite Hidx2, Hfiles2. }
    destruct (show_index_ok events s2 w2 Hok2) as (s3 & w3 & Hshow & Hf3 & Hok3).
    rewrite Hshow. intros [= <- <-]. split; [|exact Hok3].
    now apply index_ok_nonempty.
Qed.

(** C9.  When the current file decodes to a pixel array whose maximum is [m],
    the rendering returns without reporting an error and shows the array
    rescaled by [m] exactly when [0 < m]; for [m = 0] the array is shown as
    decoded, so that nothing is divided by the zero maximum. *)
Theorem zero_maximum_skips_rescale
  (s : Labeler) (w : World) (f : path) (img : image) (m : Z) :
  dicom_files s <> [] ->
  py_getitem (dicom_files s) (current_index s) = Ok f ->
  read_image f = Ok img ->
  image_max img = Ok m ->
  exists s' w',
    load_current_image (s, w) = (Ok tt, (s', w')) /\
    error_text (canvas w') = false /\
    stdout w' = stdout w /\
    picture (canvas w') = Some (if 0 <? m then rescale img m else img) /\
    (m = 0 -> picture (canvas w') = Some img).
Proof.
  intros Hne Hf Himg Hmax.
  rewrite (load_current_image_run s w f Hne Hf), Himg.
  unfold normalize. rewrite Hmax.
  do 2 eexists. split; [reflexivity|]. simpl. repeat split.
  now intros ->.
Qed.

End ViewerClaims.

Section SelectionFacts.
Context {F : PyFloat}.

(** No two coordinates are each less than the other, and the distance of
    two coordinates does not depend on which comes first. *)
Hypothesis num_lt_asym :
  forall a b : num, num_lt a b = true -> num_lt b a = false.
Hypothesis num_abs_sub_sym :
  forall a b : num, num_abs (num_sub a b) = num_abs (num_sub b a).




End SelectionFacts.







Section RoundTripClaims.
Context {F : PyFloat} {D : Decoders}.

(** Text written from a number reads back as that number. *)
Hypothesis float_str : forall v : num, py_float (py_str v) = Some v.

Lemma repeats_set (e d : Dict.t Annotation) (k : string) (ann : Annotation) :
  repeats e d -> Dict.get e k = Some ann -> repeats e (Dict.set d k ann).
Proof.
  intros Hd Hk k' ann' Hin.
  apply DictFacts.In_set in Hin as [[= -> ->]|Hin]; auto.
Qed.

Lemma repeats_preloaded (e : Dict.t Annotation) (s s' : Labeler) :
  existing_annotations s = e ->
  repeats e (annotations s) -> preloaded s s' -> repeats e (annotations s').
Proof.
  intros He Hrep [->|(k & ann & Hk & ->)]; auto.
  apply repeats_set; [exact Hrep|congruence].
Qed.

Lemma saved_rows_repeats (e : Dict.t Annotation) (s : Labeler) :
  Dict.wf e ->
  existing_annotations s = e ->
  repeats e (annotations s) ->
  saved_rows s = header :: map annotation_row e.
Proof.
  intros Hwf He Hrep. unfold saved_rows. rewrite He.
  rewrite DictFacts.merge_wf_l by auto.
  now rewrite DictFacts.update_agree.
Qed.

Lemma dispatch_reloaded (e : Dict.t Annotation) (ev : event) (st : State) :
  Dict.wf e -> draws ev = false -> reloaded e st ->
  exists st', dispatch ev st = (Ok tt, st') /\ reloaded e st'.
Proof.
  intros Hwf Hev. destruct st as [s w]. intros (Hok & He & Hrep & Hout).
  simpl in Hok, He, Hrep, Hout.
  destruct ev as [| | |c1 c2]; [| | |discriminate]; cbn [dispatch].
  - destruct (previous_image_spec s w Hok)
      as (s' & w' & Hrun & _ & Hok' & He' & Hpre & Hout').
    exists (s', w'). split; [exact Hrun|]. repeat split; simpl; try apply Hok'.
    + congruence.
    + eapply repeats_preloaded; eauto.
    + congruence.
  - destruct (next_image_spec s w Hok)
      as (s' & w' & Hrun & _ & Hok' & He' & Hpre & Hout').
    exists (s', w'). split; [exact Hrun|]. repeat split; simpl; try apply Hok'.
    + congruence.
    + eapply repeats_preloaded; eauto.
    + congruence.
  - rewrite save_annotations_run. eexists. split; [reflexivity|].
    repeat split; simpl; try apply Hok; auto.
    f_equal. now apply saved_rows_repeats.
Qed.

Lemma show_reloaded (e : Dict.t Annotation) (events : list event) :
  Dict.wf e ->
  forallb (fun ev => negb (draws ev)) events = true ->
  forall st, reloaded e st ->
  exists st', show events st = (Ok tt, st') /\ reloaded e st'.
Proof.
  intros Hwf. induction events as [|ev events IH]; intros Hq st Hst;
    cbn [show].
  - exists st. split; [reflexivity|exact Hst].
  - simpl in Hq. apply andb_true_iff in Hq as [Hev Hq].
    apply negb_true_iff in Hev.
    destruct (dispatch_reloaded e ev st Hwf Hev Hst) as (st1 & H1 & Hst1).
    destruct (IH Hq st1 Hst1) as (st2 & H2 & Hst2).
    exists st2. unfold bind. rewrite H1. destruct st1. now rewrite H2.
Qed.

Lemma scan_directory_output (st : State) :
  fs_output (snd (snd (scan_directory st))) = fs_output (snd st).
Proof.
  destruct st as [s w]. unfold scan_directory, glob. run.
  destruct (glob_rec ".dcm" (input_dir s) (fs_tree w)); simpl; auto.
  destruct (glob_rec ".jpg" (input_dir s) (fs_tree w)
            ++ glob_rec ".png" (input_dir s) (fs_tree w)); simpl; auto.
Qed.

(** The start of a session on a file that [save_annotations] wrote. *)
Lemma start_reloaded (s0 : Labeler) (input output : path) (tree : entry) :
  let e := Dict.merge (existing_annotations s0) (annotations s0) in
  exists st1,
    init input output (boot tree (Some (saved_rows s0))) = (Ok tt, st1) /\
    input_dir (fst st1) = input /\
    fs_tree (snd st1) = tree /\
    fs_output (snd st1) = Some (saved_rows s0) /\
    match scan_directory st1 with
    | (Ok _, st2) =>
        exists st3, setup_display st2 = (Ok tt, st3) /\ reloaded e st3
    | (Raise _, st2) => fs_output (snd st2) = Some (saved_rows s0)
    end.
Proof.
  cbv zeta. set (e := Dict.merge (existing_annotations s0) (annotations s0)).
  assert (Hwf : Dict.wf e) by apply DictFacts.wf_merge.
  unfold boot, saved_rows. fold e.
  erewrite init_rows by reflexivity.
  rewrite (load_rows_saved float_str e Dict.empty) by exact Hwf.
  simpl app. eexists. split; [reflexivity|]. cbn [fst snd input_dir fs_tree].
  split; [reflexivity|]. split; [reflexivity|]. split; [reflexivity|].
  match goal with
  | |- context [scan_directory ?st] =>
      pose proof (scan_directory_output st) as Hout;
      destruct (scan_directory st) as [[[]|err] [s1 w1]] eqn:Escan
  end; simpl in Hout; [|exact Hout].
  apply scan_directory_returns in Escan
    as (Hne1 & Hidx1 & Hann1 & Hex1 & _). simpl in Hidx1, Hann1, Hex1.
  assert (Hok1 : index_ok s1).
  { unfold index_ok, len. rewrite Hidx1.
    destruct (dicom_files s1); [congruence|simpl; lia]. }
  destruct (load_current_image_spec s1 w1 Hok1)
    as (s2 & w2 & Hrun & Hfiles2 & Hidx2 & Hex2 & Hpre & Hout2).
  exists (s2, w2). unfold setup_display. split; [exact Hrun|].
  unfold reloaded. cbn [fst snd]. split; [|split; [|split]].
  - unfold index_ok in *. rewrite Hidx2, Hfiles2. exact Hok1.
  - congruence.
  - eapply repeats_preloaded; eauto.
    rewrite Hann1. intros k ann [].
  - congruence.
Qed.

(** C3.  Take the file that a save leaves (from any labeler), start the
    program on it and let the session consist of navigation and saves only,
    no rectangle being drawn.  Then, where text written from a number reads
    back as that number: wherever the session stands, a save writes exactly
    the rows of the original file (header, file names, values, order); the
    session does run whenever the input directory has an image; and after a
    final Save the output file is the original file. *)
Theorem reload_then_save_reproduces_rows
  (s0 : Labeler) (w0 : World) (input output : path) (tree : entry)
  (events : list event) :
  forallb (fun ev => negb (draws ev)) events = true ->
  let file := fs_output (snd (snd (save_annotations (s0, w0)))) in
  file = Some (saved_rows s0) /\
  (forall st,
     main input output events (boot tree file) = (Ok tt, st) ->
     fs_output (snd (snd (save_annotations st))) = file) /\
  (glob_rec ".dcm" input tree ++ glob_rec ".jpg" input tree
     ++ glob_rec ".png" input tree <> [] ->
   exists st, main input output events (boot tree file) = (Ok tt, st)) /\
  fs_output (snd (run_main input output tree file (events ++ [ClickSave])))
    = file.
Proof.
  intros Hquiet. cbv zeta. rewrite save_annotations_run. cbn [fst snd fs_output].
  set (e := Dict.merge (existing_annotations s0) (annotations s0)).
  assert (Hwf : Dict.wf e) by apply DictFacts.wf_merge.
  destruct (start_reloaded s0 input output tree)
    as ([s1 w1] & Hinit & Hin & Htree & Hout1 & Hscan).
  cbn [fst snd] in Hin, Htree, Hout1. fold e in Hscan.
  split; [reflexivity|].
  unfold run_main, main, start_labeling, bind. rewrite Hinit.
  split; [|split].
  - destruct (scan_directory (s1, w1)) as [[[]|err] st2]; [|discriminate].
    destruct Hscan as (st3 & Hsetup & Hst3). rewrite Hsetup.
    destruct (show_reloaded e events Hwf Hquiet st3 Hst3)
      as ([s4 w4] & Hshow & Hst4).
    rewrite Hshow. intros st [= <-]. rewrite save_annotations_run.
    cbn [fst snd fs_output]. f_equal.
    destruct Hst4 as (_ & He4 & Hrep4 & _). cbn [fst] in He4, Hrep4.
    rewrite (saved_rows_repeats e s4 Hwf He4 Hrep4). reflexivity.
  - intros Hfound.
    assert (Hret : exists st2, scan_directory (s1, w1) = (Ok tt, st2)).
    { destruct (glob_rec ".dcm" input tree) as [|p rest] eqn:Ed.
      - destruct (glob_rec ".jpg" input tree ++ glob_rec ".png" input tree)
          as [|p rest] eqn:Ei; [now simpl in Hfound|].
        eexists. apply (scan_directory_fallback s1 w1 p rest).
        + now rewrite Hin, Htree.
        + now rewrite Hin, Htree.
      - eexists. apply (scan_directory_dicom s1 w1 p rest).
        now rewrite Hin, Htree. }
    destruct Hret as [st2 Hret]. rewrite Hret in Hscan |- *.
    destruct Hscan as (st3 & Hsetup & Hst3). rewrite Hsetup.
    destruct (show_reloaded e events Hwf Hquiet st3 Hst3)
      as (st4 & Hshow & _).
    rewrite Hshow. eauto.
  - destruct (scan_directory (s1, w1)) as [[[]|err] [s2 w2]];
      [|exact Hscan].
    destruct Hscan as (st3 & Hsetup & Hst3). rewrite Hsetup.
    assert (Hquiet' : forallb (fun ev => negb (draws ev))
                        (events ++ [ClickSave]) = true).
    { rewrite forallb_app, Hquiet. reflexivity. }
    destruct (show_reloaded e (events ++ [ClickSave]) Hwf Hquiet' st3 Hst3)
      as ([s4 w4] & Hshow & Hst4).
    rewrite Hshow. cbn [fst snd]. apply Hst4.
Qed.

End RoundTripClaims.

(** ** The integer-valued floats *)

Lemma string_length_app (t u : string) :
  String.length (t ++ u)%string = (String.length t + String.length u)%nat.
Proof. induction t as [|c t IH]; simpl; auto. Qed.

Lemma substring_whole (u : string) : substring 0 (String.length u) u = u.
Proof. induction u as [|c u IH]; simpl; congruence. Qed.

Lemma substring_app_suffix (t u : string) :
  substring (String.length t) (String.length u) (t ++ u)%string = u.
Proof. induction t as [|c t IH]; simpl; auto using substring_whole. Qed.

Lemma substring_app_prefix (t u : string) :
  substring 0 (String.length t) (t ++ u)%string = t.
Proof.
  induction t as [|c t IH]; simpl.
  - now destruct u.
  - now rewrite IH.
Qed.

Lemma strip_suffix_app (t u : string) :
  strip_suffix u (t ++ u)%string = Some t.
Proof.
  unfold strip_suffix, ends_with. rewrite string_length_app.
  replace (String.length t + String.length u - String.length u)%nat
    with (String.length t) by lia.
  rewrite substring_app_suffix, substring_app_prefix, String.eqb_refl.
  destruct (Nat.leb_spec (String.length u)
              (String.length t + String.length u)); [reflexivity|lia].
Qed.

(** Text written from an integer-valued float reads back as it. *)
Lemma Z_float_str (z : Z) : Z_float (Z_str z) = Some z.
Proof.
  unfold Z_float, Z_str. rewrite strip_suffix_app.
  rewrite NilZero.isi.
  - simpl. now rewrite DecimalZ.of_to.
  - destruct z; simpl; try discriminate.
    intros [= H]. now apply DecimalPos.Unsigned.to_uint_nonnil in H.
  - destruct z; simpl; try discriminate.
    intros [= H]. now apply DecimalPos.Unsigned.to_uint_nonnil in H.
Qed.

Lemma Z_lt_asym (a b : Z) : (a <? b) = true -> (b <? a) = false.
Proof. intros H. apply Z.ltb_lt in H. apply Z.ltb_ge. lia. Qed.

Lemma Z_lt_connex (a b : Z) : (a <? b) = false -> (b <? a) = false -> a = b.
Proof. intros H1 H2. apply Z.ltb_ge in H1, H2. lia. Qed.

Lemma Z_abs_sub_sym (a b : Z) : Z.abs (a - b) = Z.abs (b - a).
Proof. lia. Qed.

Example demo_glob :
  glob_rec ".dcm" ["scans"] demo_tree
  = [["scans"; "a.dcm"]; ["scans"; "old"; "b.dcm"]].
Proof. reflexivity. Qed.

Example demo_save :
  fs_output (snd (snd (save_annotations (demo_labeler, demo_world))))
  = Some [header;
          ["a.dcm"; "10.0"; "20.0"; "30.0"; "40.0"];
          ["b.dcm"; "4.0"; "5.0"; "6.0"; "7.0"]].
Proof. reflexivity. Qed.

Example demo_rescale : rescale [[0; 128]; [255; 64]] 255 = [[0; 128]; [255; 64]].
Proof. reflexivity. Qed.

Example demo_rescale_12bit :
  rescale [[0; 1000]; [4095; 2048]] 4095 = [[0; 62]; [255; 127]].
Proof. reflexivity. Qed.

(** What the guard of [normalize] keeps from happening: 0/0 is not a
    number. *)
Example zero_by_zero : b64_div (b64_of_Z 0) (b64_of_Z 0) = S754_nan.
Proof. reflexivity. Qed.

(** ** The demo session *)

Lemma demo_layers_wf :
  Dict.wf (existing_annotations demo_labeler) /\
  Dict.wf (annotations demo_labeler).
Proof.
  unfold Dict.wf. simpl.
  split; repeat constructor; simpl; intuition discriminate.
Qed.

Lemma demo_index_ok : index_ok demo_labeler.
Proof. unfold index_ok, len. simpl. lia. Qed.

(** The merged rows of the demo labeler, whose layers share [b.dcm]. *)
Lemma save_writes_merged_layers_witness :
  Dict.wf (existing_annotations demo_labeler) /\
  Dict.wf (annotations demo_labeler) /\
  exists data : list row,
    fs_output (snd (snd (save_annotations (demo_labeler, demo_world))))
      = Some (header :: data) /\
    data = [["a.dcm"; "10.0"; "20.0"; "30.0"; "40.0"];
            ["b.dcm"; "4.0"; "5.0"; "6.0"; "7.0"]] /\
    NoDup (map filename_of data) /\
    (forall r, In r data ->
       match Dict.get (annotations demo_labeler) (filename_of r) with
       | Some ann =>
           r = [filename_of r; py_str (x ann); py_str (y ann);
                py_str (width ann); py_str (height ann)]
       | None =>
           exists ann,
             Dict.get (existing_annotations demo_labeler) (filename_of r)
             = Some ann /\
             r = [filename_of r; py_str (x ann); py_str (y ann);
                  py_str (width ann); py_str (height ann)]
       end).
Proof.
  destruct demo_layers_wf as [He Hn].
  split; [exact He|]. split; [exact Hn|].
  destruct (save_writes_merged_layers demo_labeler demo_world He Hn)
    as (data & Hout & _ & Hnd & _ & Hrows).
  exists data. split; [exact Hout|].
  split; [|split; [exact Hnd|exact Hrows]].
  rewrite demo_save in Hout. now injection Hout as <-.
Defined.




(** The demo file, reloaded, browsed and saved twice. *)
Lemma reload_then_save_reproduces_rows_witness :
  (forall v : Z, Z_float (Z_str v) = Some v) /\
  forallb (fun ev => negb (draws ev)) [ClickNext; ClickSave; ClickPrevious]
    = true /\
  fs_output
    (snd (run_main ["scans"] ["labels.csv"] demo_tree
            (fs_output
               (snd (snd (save_annotations (demo_labeler, demo_world)))))
            ([ClickNext; ClickSave; ClickPrevious] ++ [ClickSave])))
  = fs_output (snd (snd (save_annotations (demo_labeler, demo_world)))).
Proof.
  split; [exact Z_float_str|]. split; [reflexivity|].
  apply (reload_then_save_reproduces_rows (F := ZFloat) Z_float_str demo_labeler demo_world
           ["scans"] ["labels.csv"] demo_tree
           [ClickNext; ClickSave; ClickPrevious] eq_refl).
Defined.

(** A directory with DICOM files and a PNG file, and one with pictures
    only, where the JPEG file is listed before the PNG file. *)
Lemma scan_directory_dicom_first_witness :
  let pics := set_dicom_files [] demo_labeler in
  let wpics := {| fs_tree := demo_pictures; fs_output := None; stdout := [];
                  canvas := blank |} in
  glob_rec ".dcm" (input_dir demo_labeler) (fs_tree demo_world) <> [] /\
  (exists s' w',
     scan_directory (demo_labeler, demo_world) = (Ok tt, (s', w')) /\
     dicom_files s' = [["scans"; "a.dcm"]; ["scans"; "old"; "b.dcm"]]) /\
  glob_rec ".dcm" (input_dir pics) (fs_tree wpics) = [] /\
  (exists s' w',
     scan_directory (pics, wpics) = (Ok tt, (s', w')) /\
     dicom_files s' = [["scans"; "d.jpg"]; ["scans"; "c.png"]]).
Proof.
  cbv zeta.
  assert (Hne : glob_rec ".dcm" (input_dir demo_labeler) (fs_tree demo_world)
                <> []) by (simpl; discriminate).
  split; [exact Hne|]. split.
  - destruct (proj1 (scan_directory_dicom_first demo_labeler demo_world) Hne)
      as (s' & w' & Hrun & Hfiles & _).
    exists s', w'. split; [exact Hrun|exact Hfiles].
  - split; [reflexivity|].
    destruct (proj2 (scan_directory_dicom_first
                       (set_dicom_files [] demo_labeler)
                       {| fs_tree := demo_pictures; fs_output := None;
                          stdout := []; canvas := blank |}) eq_refl)
      as (s' & w' & Hrun & Hfiles & _); [simpl; discriminate|].
    exists s', w'. split; [exact Hrun|exact Hfiles].
Defined.

(** A directory of notes. *)
Lemma scan_directory_nothing_found_witness :
  glob_rec ".dcm" ["notes"] demo_notes = [] /\
  glob_rec ".jpg" ["notes"] demo_notes = [] /\
  glob_rec ".png" ["notes"] demo_notes = [] /\
  fst (run_main ["notes"] ["labels.csv"] demo_notes None [ClickSave]) <> 0 /\
  fs_output (snd (run_main ["notes"] ["labels.csv"] demo_notes None
                    [ClickSave])) = None.
Proof.
  split; [reflexivity|]. split; [reflexivity|]. split; [reflexivity|].
  destruct (scan_directory_nothing_found ["notes"] ["labels.csv"] demo_notes
              None [ClickSave] eq_refl eq_refl eq_refl)
    as (_ & Hstatus & Hfile & _).
  split; [exact Hstatus|exact Hfile].
Defined.

(** The row of three fields of the specification, and a row of six. *)
Lemma load_skips_short_rows_witness :
  (List.length ["img1.dcm"; "5"; "10"] < 5)%nat /\
  load_row Dict.empty ["img1.dcm"; "5"; "10"] = Ok Dict.empty /\
  (5 <= List.length ["img1.dcm"; "5.0"; "10"; "20.0"; "-3"; "extra"])%nat /\
  load_row Dict.empty ["img1.dcm"; "5.0"; "10"; "20.0"; "-3"; "extra"]
  = Ok [("img1.dcm", {| x := 5; y := 10; width := 20; height := -3 |})].
Proof.
  assert (Hshort : (List.length ["img1.dcm"; "5"; "10"] < 5)%nat)
    by (simpl; lia).
  assert (Hlong : (5 <= List.length
                     ["img1.dcm"; "5.0"; "10"; "20.0"; "-3"; "extra"])%nat)
    by (simpl; lia).
  split; [exact Hshort|].
  split; [exact (proj1 load_skips_short_rows Dict.empty _ Hshort)|].
  split; [exact Hlong|].
  exact (proj1 (proj2 (proj2 load_skips_short_rows)) Dict.empty
           ["img1.dcm"; "5.0"; "10"; "20.0"; "-3"; "extra"] 5 10 20 (-3)
           Hlong eq_refl eq_refl eq_refl eq_refl).
Defined.

(** A row of five fields whose numeric fields are not numbers is not
    accepted: reading it raises [ValueError], and so does the start of the
    program on a file that holds it. *)
Lemma five_field_row_raises :
  let r := ["img1.dcm"; "left"; "top"; "10.0"; "20.0"] in
  (5 <= List.length r)%nat /\
  load_row (F := ZFloat) Dict.empty r = Raise ValueError /\
  fst (init ["scans"] ["labels.csv"] (boot demo_tree (Some [header; r])))
  = Raise ValueError /\
  ~ (forall (existing : Dict.t Annotation) (r' : row),
       (5 <= List.length r')%nat ->
       exists existing', load_row existing r' = Ok existing').
Proof.
  cbv zeta. split; [simpl; lia|]. split; [reflexivity|].
  split; [reflexivity|].
  intros H.
  destruct (H Dict.empty ["img1.dcm"; "left"; "top"; "10.0"; "20.0"])
    as [d Hd]; [simpl; lia|discriminate].
Qed.

(** Next on the last of the two demo files. *)
Lemma navigation_keeps_index_in_range_witness :
  dicom_files demo_labeler <> [] /\
  index_ok demo_labeler /\
  current_index demo_labeler = len (dicom_files demo_labeler) - 1 /\
  next_image (demo_labeler, demo_world) = (Ok tt, (demo_labeler, demo_world)).
Proof.
  assert (Hne : dicom_files demo_labeler <> []) by (simpl; discriminate).
  split; [exact Hne|]. split; [exact demo_index_ok|].
  split; [reflexivity|].
  exact (proj1 (navigation_keeps_index_in_range demo_labeler demo_world Hne
                  demo_index_ok) eq_refl).
Defined.

(** The black 2x2 array of [a.dcm]. *)
Lemma zero_maximum_skips_rescale_witness :
  let s := set_current_index 0 demo_labeler in
  dicom_files s <> [] /\
  py_getitem (dicom_files s) (current_index s) = Ok ["scans"; "a.dcm"] /\
  read_image ["scans"; "a.dcm"] = Ok [[0; 0]; [0; 0]] /\
  image_max [[0; 0]; [0; 0]] = Ok 0 /\
  exists s' w',
    load_current_image (s, demo_world) = (Ok tt, (s', w')) /\
    error_text (canvas w') = false /\
    picture (canvas w') = Some [[0; 0]; [0; 0]].
Proof.
  cbv zeta.
  assert (Hne : dicom_files (set_current_index 0 demo_labeler) <> [])
    by (simpl; discriminate).
  split; [exact Hne|]. split; [reflexivity|]. split; [reflexivity|].
  split; [reflexivity|].
  destruct (zero_maximum_skips_rescale (D := demo_decoders)
              (set_current_index 0 demo_labeler)
              demo_world ["scans"; "a.dcm"] [[0; 0]; [0; 0]] 0 Hne
              eq_refl eq_refl eq_refl)
    as (s' & w' & Hrun & Herr & _ & _ & Hpic).
  exists s', w'. split; [exact Hrun|]. split; [exact Herr|].
  exact (Hpic eq_refl).
Defined.

(** * Further properties *)

(** ** Dictionaries: assignment order *)

Section DictOrder.
Context {V : Type}.
Implicit Types (d other : Dict.t V) (k : string) (v : V).

Lemma dict_set_set d k v v' :
  Dict.set (Dict.set d k v) k v' = Dict.set d k v'.
Proof.
  induction d as [|[k0 v0] d IH]; simpl.
  - now rewrite String.eqb_refl.
  - destruct (String.eqb k0 k) eqn:E; simpl; rewrite E; congruence.
Qed.

Lemma dict_mem_In d k : Dict.mem d k = true <-> In k (Dict.keys d).
Proof.
  unfold Dict.mem. destruct (Dict.get d k) as [v|] eqn:E.
  - split; [intros _|reflexivity]. eapply DictFacts.get_Some_keys; eauto.
  - split; [discriminate|]. intros Hin. now apply DictFacts.get_None in E.
Qed.

Lemma dict_mem_set_neq d k k' v :
  k <> k' -> Dict.mem (Dict.set d k v) k' = Dict.mem d k'.
Proof. intros H. unfold Dict.mem. now rewrite DictFacts.get_set_neq. Qed.

(** New keys are appended in the order they are assigned; keys that are
    already there keep their place. *)
Lemma keys_update_order other :
  forall d,
    Dict.wf other ->
    Dict.keys (Dict.update d other) =
    Dict.keys d
    ++ filter (fun k => negb (Dict.mem d k)) (Dict.keys other).
Proof.
  unfold Dict.update, Dict.wf.
  induction other as [|[k v] other IH]; intros d Hnd; simpl.
  - now rewrite app_nil_r.
  - inversion Hnd as [|? ? Hnot Hnd']; subst.
    rewrite IH by exact Hnd'.
    assert (Hfilter :
      filter (fun k' => negb (Dict.mem (Dict.set d k v) k')) (Dict.keys other)
      = filter (fun k' => negb (Dict.mem d k')) (Dict.keys other)).
    { apply filter_ext_in. intros k' Hin.
      rewrite dict_mem_set_neq; [reflexivity|].
      intros ->. contradiction. }
    rewrite Hfilter.
    destruct (Dict.mem d k) eqn:Hmem; simpl.
    + apply dict_mem_In in Hmem.
      now rewrite DictFacts.keys_set_present.
    + assert (Hget : Dict.get d k = None).
      { unfold Dict.mem in Hmem. now destruct (Dict.get d k). }
      rewrite DictFacts.set_absent by exact Hget.
      unfold Dict.keys. rewrite map_app. simpl. now rewrite <- app_assoc.
Qed.

End DictOrder.

Section StoreExtras.
Context {F : PyFloat}.

(** X1.  The data rows of a save keep the order of the existing layer (the
    order of the file it was loaded from); the file names that only the new
    layer holds follow, in the order in which they were first annotated. *)
Theorem saved_rows_keep_order (s : Labeler) (w : World) :
  Dict.wf (existing_annotations s) ->
  Dict.wf (annotations s) ->
  exists data : list row,
    fs_output (snd (snd (save_annotations (s, w)))) = Some (header :: data) /\
    map filename_of data =
    Dict.keys (existing_annotations s)
    ++ filter (fun k => negb (Dict.mem (existing_annotations s) k))
         (Dict.keys (annotations s)).
Proof.
  intros He Hn. rewrite save_annotations_run. simpl.
  eexists. split; [reflexivity|].
  rewrite map_map.
  rewrite (map_ext (fun item => filename_of (annotation_row item)) fst)
    by (intros item; apply annotation_row_filename).
  rewrite DictFacts.merge_wf_l by exact He.
  now apply keys_update_order.
Qed.

End StoreExtras.

(** ** Loading *)

Section LoadExtras.
Context {F : PyFloat} {D : Decoders}.

Lemma load_row_spec (existing : Dict.t Annotation) (r : row) :
  load_row existing r =
  if (5 <=? List.length r)%nat then
    match row_annotation r with
    | Some ann => Ok (Dict.set existing (nth 0 r "") ann)
    | None => Raise ValueError
    end
  else Ok existing.
Proof.
  unfold load_row, row_annotation, float.
  destruct (Nat.leb_spec 5 (List.length r));
    destruct (Z.leb_spec 5 (Z.of_nat (List.length r))); try lia; auto.
  destruct (py_float (nth 1 r "")); auto.
  destruct (py_float (nth 2 r "")); auto.
  destruct (py_float (nth 3 r "")); auto.
  destruct (py_float (nth 4 r "")); auto.
Qed.


Lemma load_rows_app (rows rows' : list row) :
  forall existing : Dict.t Annotation,
    load_rows existing (rows ++ rows') =
    match load_rows existing rows with
    | Ok existing' => load_rows existing' rows'
    | Raise e => Raise e
    end.
Proof.
  induction rows as [|r rows IH]; intros existing; simpl; auto.
  destruct (load_row existing r); auto.
Qed.

(** Rows that do not name a file leave its entry alone. *)
Lemma load_rows_other_names (k : string) (rows : list row) :
  forall existing existing' : Dict.t Annotation,
    (forall r, In r rows -> (5 <= List.length r)%nat -> nth 0 r "" <> k) ->
    load_rows existing rows = Ok existing' ->
    Dict.get existing' k = Dict.get existing k.
Proof.
  induction rows as [|r rows IH]; intros d d' Hother; simpl.
  - now intros [= <-].
  - rewrite load_row_spec.
    destruct (Nat.leb_spec 5 (List.length r)) as [Hlong|Hshort].
    + destruct (row_annotation r) as [ann|]; [|discriminate].
      intros Hload. rewrite (IH _ _ (fun r' H => Hother r' (or_intror H)) Hload).
      apply DictFacts.get_set_neq. apply Hother; [now left|exact Hlong].
    + apply IH. intros r' H. apply Hother. now right.
Qed.

(** X2.  Only the first five fields of a row are read: what follows them
    changes nothing, neither the entry stored nor the error raised. *)
Theorem load_row_ignores_extra_fields
  (existing : Dict.t Annotation) (r extra : row) :
  (5 <= List.length r)%nat ->
  load_row existing (r ++ extra) = load_row existing r.
Proof.
  intros Hlong. rewrite !load_row_spec. unfold row_annotation.
  rewrite length_app.
  destruct (Nat.leb_spec 5 (List.length r + List.length extra)); [|lia].
  destruct (Nat.leb_spec 5 (List.length r)); [|lia].
  now rewrite !app_nth1 by lia.
Qed.

(** X3.  When a load returns, a row of at least 5 fields is what the
    existing layer holds for its file name, unless a later row of at least 5
    fields has the same file name: of several rows for one file the last
    wins. *)
Theorem load_rows_last_row_wins
  (existing existing' : Dict.t Annotation) (before after : list row)
  (r : row) :
  load_rows existing (before ++ r :: after) = Ok existing' ->
  (5 <= List.length r)%nat ->
  (forall r', In r' after -> (5 <= List.length r')%nat ->
              nth 0 r' "" <> nth 0 r "") ->
  exists ann,
    row_annotation r = Some ann /\
    Dict.get existing' (nth 0 r "") = Some ann.
Proof.
  intros Hload Hlong Hafter. rewrite load_rows_app in Hload.
  destruct (load_rows existing before) as [d1|]; [|discriminate].
  simpl in Hload. rewrite load_row_spec in Hload.
  destruct (Nat.leb_spec 5 (List.length r)); [|lia].
  destruct (row_annotation r) as [ann|]; [|discriminate].
  exists ann. split; [reflexivity|].
  rewrite (load_rows_other_names (nth 0 r "") after _ _ Hafter Hload).
  apply DictFacts.get_set_eq.
Qed.




End LoadExtras.

(** ** What writes the output file *)

Create HintDb keeps.

Section OutputExtras.
Context {F : PyFloat} {D : Decoders}.

Lemma keeps_ret {A : Type} (a : A) : keeps_output (ret a).
Proof. intros st. reflexivity. Qed.

Lemma keeps_raise {A : Type} (e : exn) : keeps_output (raise (A := A) e).
Proof. intros st. reflexivity. Qed.

Lemma keeps_lift {A : Type} (r : result A) : keeps_output (lift r).
Proof. intros st. reflexivity. Qed.

Lemma keeps_get_self : keeps_output get_self.
Proof. intros st. reflexivity. Qed.

Lemma keeps_get_world : keeps_output get_world.
Proof. intros st. reflexivity. Qed.

Lemma keeps_modify_self (f : Labeler -> Labeler) :
  keeps_output (modify_self f).
Proof. intros st. reflexivity. Qed.

Lemma keeps_modify_canvas (f : Canvas -> Canvas) :
  keeps_output (modify_canvas f).
Proof. intros st. reflexivity. Qed.

Lemma keeps_print (m : message) : keeps_output (print m).
Proof. intros st. reflexivity. Qed.

Lemma keeps_bind {A B : Type} (c : M A) (k : A -> M B) :
  keeps_output c -> (forall a, keeps_output (k a)) -> keeps_output (bind c k).
Proof.
  intros Hc Hk st. unfold bind. specialize (Hc st).
  destruct (c st) as [[a|e] st']; simpl in *.
  - now rewrite Hk.
  - exact Hc.
Qed.

Lemma keeps_try_except {A : Type} (c h : M A) :
  keeps_output c -> keeps_output h -> keeps_output (try_except c h).
Proof.
  intros Hc Hh st. unfold try_except. specialize (Hc st).
  destruct (c st) as [[a|e] st']; simpl in *; [exact Hc|].
  destruct e; try (now rewrite Hh); exact Hc.
Qed.

End OutputExtras.

#[export] Hint Resolve keeps_ret keeps_raise keeps_lift keeps_get_self
  keeps_get_world keeps_modify_self keeps_modify_canvas keeps_print : keeps.

(** Walks through a method: binds and handlers by their rules, branches by
    cases, calls by the facts in [keeps]. *)
Ltac keeps :=
  repeat match goal with
         | |- keeps_output (bind _ _) => apply keeps_bind; [|intros]
         | |- keeps_output (try_except _ _) => apply keeps_try_except
         | |- keeps_output (match ?t with _ => _ end) => destruct t
         | |- keeps_output _ => solve [auto with keeps]
         end.

Section OutputHandlers.
Context {F : PyFloat} {D : Decoders}.

Lemma keeps_draw_annotations : keeps_output draw_annotations.
Proof. unfold draw_annotations. keeps. Qed.

Hint Resolve keeps_draw_annotations : keeps.

Lemma keeps_on_select (eclick erelease : num * num) :
  keeps_output (on_select eclick erelease).
Proof. unfold on_select. keeps. Qed.

Lemma keeps_load_current_image : keeps_output load_current_image.
Proof. unfold load_current_image. keeps. Qed.

Hint Resolve keeps_load_current_image : keeps.

Lemma keeps_next_image : keeps_output next_image.
Proof. unfold next_image. keeps. Qed.

Lemma keeps_previous_image : keeps_output previous_image.
Proof. unfold previous_image. keeps. Qed.

Lemma keeps_init (input output : path) : keeps_output (init input output).
Proof. intros st. now rewrite init_world. Qed.

Lemma keeps_scan_directory : keeps_output scan_directory.
Proof. unfold scan_directory, glob. keeps. Qed.

Hint Resolve keeps_on_select keeps_next_image keeps_previous_image
  keeps_init keeps_scan_directory : keeps.

Lemma keeps_show (events : list event) :
  ~ In ClickSave events -> keeps_output (show events).
Proof.
  induction events as [|ev events IH]; intros Hno; cbn [show].
  - auto with keeps.
  - apply keeps_bind.
    + destruct ev; cbn [dispatch]; auto with keeps.
      exfalso. apply Hno. now left.
    + intros _. apply IH. intros Hin. apply Hno. now right.
Qed.

(** X10.  Only Save writes: a session in which Save is never clicked leaves
    the output file exactly as it was (missing, if it was missing), whatever
    is drawn and however the program ends. *)
Theorem output_written_only_by_save
  (input output : path) (tree : entry) (file : option (list row))
  (events : list event) :
  ~ In ClickSave events ->
  fs_output (snd (run_main input output tree file events)) = file.
Proof.
  intros Hno.
  assert (Hmain : keeps_output (main input output events)).
  { unfold main, start_labeling, setup_display.
    pose proof (keeps_show events Hno). keeps. }
  specialize (Hmain (boot tree file)). unfold run_main.
  destruct (main input output events (boot tree file)) as [r [s w]].
  exact Hmain.
Qed.

End OutputHandlers.

(** ** Navigation and rendering *)

Section ViewerExtras.
Context {F : PyFloat} {D : Decoders}.

Lemma next_image_unfold (s : Labeler) (w : World) :
  next_image (s, w) =
  if current_index s <? len (dicom_files s) - 1
  then load_current_image (set_current_index (current_index s + 1) s, w)
  else (Ok tt, (s, w)).
Proof.
  unfold next_image, bind, get_self, modify_self. cbn [fst snd].
  now destruct (current_index s <? len (dicom_files s) - 1).
Qed.

Lemma previous_image_unfold (s : Labeler) (w : World) :
  previous_image (s, w) =
  if 0 <? current_index s
  then load_current_image (set_current_index (current_index s - 1) s, w)
  else (Ok tt, (s, w)).
Proof.
  unfold previous_image, bind, get_self, modify_self. cbn [fst snd].
  now destruct (0 <? current_index s).
Qed.

Lemma next_image_index (s : Labeler) (w : World) :
  index_ok s ->
  exists s' w',
    next_image (s, w) = (Ok tt, (s', w')) /\
    dicom_files s' = dicom_files s /\
    current_index s' =
      Z.min (current_index s + 1) (len (dicom_files s) - 1).
Proof.
  intros Hok. rewrite next_image_unfold.
  destruct (Z.ltb_spec (current_index s) (len (dicom_files s) - 1)).
  - destruct (load_current_image_spec
                (set_current_index (current_index s + 1) s) w)
      as (s' & w' & Hrun & Hfiles & Hidx & _).
    { unfold index_ok in *. simpl. lia. }
    exists s', w'. split; [exact Hrun|]. split; [exact Hfiles|].
    rewrite Hidx. simpl. lia.
  - exists s, w. unfold index_ok in Hok. repeat split. lia.
Qed.

Lemma previous_image_index (s : Labeler) (w : World) :
  index_ok s ->
  exists s' w',
    previous_image (s, w) = (Ok tt, (s', w')) /\
    dicom_files s' = dicom_files s /\
    current_index s' = Z.max (current_index s - 1) 0.
Proof.
  intros Hok. rewrite previous_image_unfold.
  destruct (Z.ltb_spec 0 (current_index s)).
  - destruct (load_current_image_spec
                (set_current_index (current_index s - 1) s) w)
      as (s' & w' & Hrun & Hfiles & Hidx & _).
    { unfold index_ok in *. simpl. lia. }
    exists s', w'. split; [exact Hrun|]. split; [exact Hfiles|].
    rewrite Hidx. simpl. lia.
  - exists s, w. unfold index_ok in Hok. repeat split. lia.
Qed.

(** X7.  [n] clicks on Next move the index forward by [n] but not past the
    last file; [n] clicks on Previous move it back by [n] but not below 0. *)
Theorem navigation_clicks_saturate (n : nat) :
  forall (s : Labeler) (w : World),
    index_ok s ->
    (exists s' w',
       show (repeat ClickNext n) (s, w) = (Ok tt, (s', w')) /\
       current_index s' =
         Z.min (current_index s + Z.of_nat n) (len (dicom_files s) - 1)) /\
    (exists s' w',
       show (repeat ClickPrevious n) (s, w) = (Ok tt, (s', w')) /\
       current_index s' = Z.max (current_index s - Z.of_nat n) 0).
Proof.
  induction n as [|n IH]; intros s w Hok.
  - unfold index_ok in Hok. split; exists s, w; split; try reflexivity; lia.
  - cbn [repeat show dispatch]. unfold bind. split.
    + destruct (next_image_index s w Hok) as (s1 & w1 & Hrun & Hfiles & Hidx).
      rewrite Hrun.
      assert (Hok1 : index_ok s1).
      { unfold index_ok in *. rewrite Hfiles, Hidx. lia. }
      destruct (proj1 (IH s1 w1 Hok1)) as (s2 & w2 & Hshow & Hidx2).
      exists s2, w2. split; [exact Hshow|].
      rewrite Hidx2, Hidx, Hfiles. unfold index_ok in Hok. lia.
    + destruct (previous_image_index s w Hok)
        as (s1 & w1 & Hrun & Hfiles & Hidx).
      rewrite Hrun.
      assert (Hok1 : index_ok s1).
      { unfold index_ok in *. rewrite Hfiles, Hidx. lia. }
      destruct (proj2 (IH s1 w1 Hok1)) as (s2 & w2 & Hshow & Hidx2).
      exists s2, w2. split; [exact Hshow|].
      rewrite Hidx2, Hidx. unfold index_ok in Hok. lia.
Qed.

(** X5.  A current file that neither decoder reads, or whose array has no
    element, is not fatal: the rendering returns, prints the error, shows
    the error text with no picture and no outline, and leaves the labeler
    as it was (an existing annotation of that file is not taken over).  A
    rectangle drawn over the error text is stored and outlined all the
    same. *)
Theorem undecodable_file_is_reported
  (s : Labeler) (w : World) (f : path) (eclick erelease : num * num) :
  dicom_files s <> [] ->
  py_getitem (dicom_files s) (current_index s) = Ok f ->
  (dcmread_pixel_array f = None /\ cv2_imread f = None) \/
  (exists img, read_image f = Ok img /\ List.concat img = []) ->
  exists w',
    load_current_image (s, w) = (Ok tt, (s, w')) /\
    stdout w' = stdout w ++ [ErrorReadingFile f] /\
    picture (canvas w') = None /\
    patches (canvas w') = [] /\
    error_text (canvas w') = true /\
    exists s'' w'',
      on_select eclick erelease (s, w') = (Ok tt, (s'', w'')) /\
      Dict.get (annotations s'') (name f) = Some (rectangle eclick erelease) /\
      patches (canvas w'') = [rectangle eclick erelease] /\
      error_text (canvas w'') = true.
Proof.
  intros Hne Hf Hbad. rewrite (load_current_image_run s w f Hne Hf).
  assert (Hfail : (exists e, read_image f = Raise e) \/
                  (exists img e, read_image f = Ok img /\
                                 normalize img = Raise e)).
  { destruct Hbad as [[Hd Hc]|(img & Himg & Hempty)].
    - left. unfold read_image. rewrite Hd, Hc. eauto.
    - right. exists img. unfold normalize, image_max. rewrite Hempty. eauto. }
  destruct eclick as [x1 y1], erelease as [x2 y2].
  assert (Hsel : forall w0,
             on_select (x1, y1) (x2, y2) (s, w0) =
             (Ok tt,
              (set_annotations
                 (Dict.set (annotations s) (name f)
                    (rectangle (x1, y1) (x2, y2))) s,
               set_canvas
                 {| picture := picture (canvas w0);
                    title := title (canvas w0);
                    patches := [rectangle (x1, y1) (x2, y2)];
                    error_text := error_text (canvas w0) |} w0)))
    by (intros w0; apply (on_select_run s w0 f x1 y1 x2 y2 Hf)).
  destruct Hfail as [[e He]|(img & e & Himg & Hnorm)].
  - rewrite He. eexists. do 5 (split; [reflexivity|]).
    do 2 eexists. rewrite Hsel. split; [reflexivity|]. simpl.
    split; [apply DictFacts.get_set_eq|]. split; reflexivity.
  - rewrite Himg, Hnorm. eexists. do 5 (split; [reflexivity|]).
    do 2 eexists. rewrite Hsel. split; [reflexivity|]. simpl.
    split; [apply DictFacts.get_set_eq|]. split; reflexivity.
Qed.

(** X13.  A rectangle drawn on a file that has an existing annotation does
    not survive leaving the file: after the selection, Next and Previous,
    the viewer is back on the file, and the new layer and the outline hold
    the existing annotation again. *)
Theorem rerender_restores_existing
  (s : Labeler) (w : World) (f : path) (img : image) (m : Z)
  (ann : Annotation) (eclick erelease : num * num) :
  index_ok s ->
  current_index s < len (dicom_files s) - 1 ->
  py_getitem (dicom_files s) (current_index s) = Ok f ->
  read_image f = Ok img ->
  image_max img = Ok m ->
  Dict.get (existing_annotations s) (name f) = Some ann ->
  exists s' w',
    show [Select eclick erelease; ClickNext; ClickPrevious] (s, w)
    = (Ok tt, (s', w')) /\
    current_index s' = current_index s /\
    Dict.get (annotations s') (name f) = Some ann /\
    patches (canvas w') = [ann].
Proof.
  intros Hok Hlt Hf Himg Hmax Hex.
  destruct eclick as [x1 y1], erelease as [x2 y2].
  cbn [show dispatch]. unfold bind.
  rewrite (on_select_run s w f x1 y1 x2 y2 Hf). cbv zeta.
  set (s1 := set_annotations _ s). set (w1 := set_canvas _ w).
  assert (Hok1 : index_ok s1) by exact Hok.
  destruct (next_image_index s1 w1 Hok1) as (s2 & w2 & Hnext & Hfiles2 & Hidx2).
  destruct (next_image_spec s1 w1 Hok1)
    as (s2' & w2' & Hnext' & _ & Hok2 & Hex2 & _).
  rewrite Hnext in Hnext'. injection Hnext' as <- <-.
  rewrite Hnext. simpl in Hfiles2, Hidx2, Hex2.
  assert (Hidx2' : current_index s2 = current_index s + 1) by lia.
  rewrite previous_image_unfold.
  destruct (Z.ltb_spec 0 (current_index s2)); [|unfold index_ok in Hok; lia].
  set (s3 := set_current_index (current_index s2 - 1) s2).
  assert (Hf3 : py_getitem (dicom_files s3) (current_index s3) = Ok f).
  { subst s3. simpl. rewrite Hfiles2, Hidx2'.
    replace (current_index s + 1 - 1) with (current_index s) by lia.
    exact Hf. }
  assert (Hne3 : dicom_files s3 <> []).
  { subst s3. simpl. rewrite Hfiles2. now apply index_ok_nonempty. }
  rewrite (load_current_image_run s3 w2 f Hne3 Hf3), Himg.
  unfold normalize. rewrite Hmax.
  assert (Hex3 : Dict.get (existing_annotations s3) (name f) = Some ann).
  { subst s3. simpl. now rewrite Hex2. }
  rewrite Hex3. cbv zeta. do 2 eexists. split; [reflexivity|].
  simpl. rewrite DictFacts.get_set_eq. repeat split. lia.
Qed.

(** X11.  A second rectangle on the same image replaces the first: two
    selections in a row leave exactly what the second one alone leaves. *)
Theorem second_rectangle_replaces_first
  (s : Labeler) (w : World) (c1 c2 c3 c4 : num * num) :
  show [Select c1 c2; Select c3 c4] (s, w) = show [Select c3 c4] (s, w).
Proof.
  destruct c1 as [x1 y1], c2 as [x2 y2], c3 as [x3 y3], c4 as [x4 y4].
  cbn [show dispatch]. unfold bind.
  destruct (py_getitem (dicom_files s) (current_index s)) as [f|e] eqn:Hf.
  - rewrite (on_select_run s w f x1 y1 x2 y2 Hf). cbv zeta.
    rewrite (on_select_run s w f x3 y3 x4 y4 Hf). cbv zeta.
    erewrite on_select_run by exact Hf. cbv zeta. simpl.
    now rewrite dict_set_set.
  - unfold on_select, bind, get_self, lift. cbn [fst snd]. now rewrite Hf.
Qed.

End ViewerExtras.

(** ** Whole sessions *)

Section SessionExtras.
Context {F : PyFloat} {D : Decoders}.

Lemma init_returns (input output : path) (st : State) (s0 : Labeler)
  (w0 : World) :
  init input output st = (Ok tt, (s0, w0)) ->
  input_dir s0 = input /\ output_file s0 = output /\ dicom_files s0 = [] /\
  current_index s0 = 0 /\ annotations s0 = Dict.empty /\ w0 = snd st.
Proof.
  destruct st as [s w]. unfold init, load_existing_annotations. run.
  destruct (fs_output w) as [[|h data]|]; simpl; try discriminate.
  - destruct (load_rows Dict.empty data); simpl; [|discriminate].
    intros [= <- <-]. repeat split.
  - intros [= <- <-]. repeat split.
Qed.

Lemma load_current_image_outline (s : Labeler) (w : World) :
  index_ok s ->
  exists s' w',
    load_current_image (s, w) = (Ok tt, (s', w')) /\
    dicom_files s' = dicom_files s /\
    current_index s' = current_index s /\
    outline_ok (s', w').
Proof.
  intros Hok. destruct (index_ok_getitem s Hok) as [f Hf].
  rewrite (load_current_image_run s w f (index_ok_nonempty s Hok) Hf).
  destruct (read_image f) as [img|e].
  - destruct (normalize img) as [shown|e'].
    + cbv zeta. do 2 eexists. split; [reflexivity|]. simpl.
      split; [reflexivity|]. split; [reflexivity|].
      intros f'. simpl. rewrite Hf. intros [= <-].
      match goal with
      | |- context [Dict.get ?d (name f)] =>
          destruct (Dict.get d (name f)) as [ann|]; eauto
      end.
    + do 2 eexists. split; [reflexivity|]. repeat split.
      intros f' _. now left.
  - do 2 eexists. split; [reflexivity|]. repeat split.
    intros f' _. now left.
Qed.

Lemma dispatch_outline (ev : event) (s : Labeler) (w : World) :
  index_ok s ->
  outline_ok (s, w) ->
  exists s' w',
    dispatch ev (s, w) = (Ok tt, (s', w')) /\
    index_ok s' /\
    outline_ok (s', w').
Proof.
  intros Hok Hout. destruct ev as [| | |[x1 y1] [x2 y2]]; cbn [dispatch].
  - rewrite previous_image_unfold.
    destruct (Z.ltb_spec 0 (current_index s)); [|eauto].
    destruct (load_current_image_outline
                (set_current_index (current_index s - 1) s) w)
      as (s' & w' & Hrun & Hfiles & Hidx & Hout').
    { unfold index_ok in *. simpl. lia. }
    exists s', w'. split; [exact Hrun|]. split; [|exact Hout'].
    unfold index_ok in *. rewrite Hidx, Hfiles. simpl. lia.
  - rewrite next_image_unfold.
    destruct (Z.ltb_spec (current_index s) (len (dicom_files s) - 1));
      [|eauto].
    destruct (load_current_image_outline
                (set_current_index (current_index s + 1) s) w)
      as (s' & w' & Hrun & Hfiles & Hidx & Hout').
    { unfold index_ok in *. simpl. lia. }
    exists s', w'. split; [exact Hrun|]. split; [|exact Hout'].
    unfold index_ok in *. rewrite Hidx, Hfiles. simpl. lia.
  - rewrite save_annotations_run. do 2 eexists. split; [reflexivity|].
    split; [exact Hok|exact Hout].
  - destruct (index_ok_getitem s Hok) as [f Hf].
    rewrite (on_select_run s w f x1 y1 x2 y2 Hf). cbv zeta.
    do 2 eexists. split; [reflexivity|]. split; [exact Hok|].
    intros f'. simpl. rewrite Hf. intros [= <-]. right.
    eexists. split; [reflexivity|]. apply DictFacts.get_set_eq.
Qed.

Lemma show_outline (events : list event) :
  forall (s : Labeler) (w : World),
    index_ok s ->
    outline_ok (s, w) ->
    exists s' w',
      show events (s, w) = (Ok tt, (s', w')) /\
      index_ok s' /\
      outline_ok (s', w').
Proof.
  induction events as [|ev events IH]; intros s w Hok Hout; cbn [show].
  - exists s, w. auto.
  - destruct (dispatch_outline ev s w Hok Hout) as (s1 & w1 & H1 & Hok1 & Hout1).
    destruct (IH s1 w1 Hok1 Hout1) as (s2 & w2 & H2 & Hok2 & Hout2).
    exists s2, w2. unfold bind. rewrite H1, H2. auto.
Qed.

(** The state in which the window opens. *)
Lemma session_opens (input output : path) (st : State) (s0 : Labeler)
  (w0 : World) :
  init input output st = (Ok tt, (s0, w0)) ->
  glob_rec ".dcm" input (fs_tree (snd st))
    ++ glob_rec ".jpg" input (fs_tree (snd st))
    ++ glob_rec ".png" input (fs_tree (snd st)) <> [] ->
  exists s1 w1 s2 w2,
    scan_directory (s0, w0) = (Ok tt, (s1, w1)) /\
    setup_display (s1, w1) = (Ok tt, (s2, w2)) /\
    index_ok s2 /\ outline_ok (s2, w2).
Proof.
  intros Hinit Hfound.
  apply init_returns in Hinit as (Hin & _ & _ & Hidx0 & _ & Hw0).
  assert (Hscan : exists st1, scan_directory (s0, w0) = (Ok tt, st1)).
  { subst w0. rewrite <- Hin in Hfound.
    destruct (glob_rec ".dcm" (input_dir s0) (fs_tree (snd st)))
      as [|p rest] eqn:Ed.
    - destruct (glob_rec ".jpg" (input_dir s0) (fs_tree (snd st))
                ++ glob_rec ".png" (input_dir s0) (fs_tree (snd st)))
        as [|p rest] eqn:Ei; [now simpl in Hfound|].
      eexists. apply (scan_directory_fallback s0 (snd st) p rest Ed Ei).
    - eexists. apply (scan_directory_dicom s0 (snd st) p rest Ed). }
  destruct Hscan as [[s1 w1] Hscan]. exists s1, w1.
  pose proof (scan_directory_returns s0 w0 s1 w1 Hscan) as (Hne1 & Hidx1 & _).
  assert (Hok1 : index_ok s1).
  { unfold index_ok, len. rewrite Hidx1, Hidx0.
    destruct (dicom_files s1); [congruence|simpl; lia]. }
  destruct (load_current_image_outline s1 w1 Hok1)
    as (s2 & w2 & Hrun & Hfiles & Hidx & Hout).
  exists s2, w2. split; [exact Hscan|]. split; [exact Hrun|].
  split; [|exact Hout]. unfold index_ok in *. now rewrite Hidx, Hfiles.
Qed.

(** X14.  Once the existing annotations are loaded and the directory has an
    image, no sequence of clicks on Previous and Next and of rectangle
    selections makes a callback raise: the session runs to the closing of
    the window and the status is 0.  (Save is left out: it opens the output
    file, which the labeler does not guard.) *)
Theorem session_without_save_never_raises
  (input output : path) (tree : entry) (file : option (list row))
  (events : list event) :
  fst (init input output (boot tree file)) = Ok tt ->
  glob_rec ".dcm" input tree ++ glob_rec ".jpg" input tree
    ++ glob_rec ".png" input tree <> [] ->
  ~ In ClickSave events ->
  (exists st, main input output events (boot tree file) = (Ok tt, st)) /\
  fst (run_main input output tree file events) = 0.
Proof.
  intros Hinit Hfound _.
  destruct (init input output (boot tree file)) as [r [s0 w0]] eqn:Einit.
  simpl in Hinit. subst r.
  destruct (session_opens input output (boot tree file) s0 w0 Einit Hfound)
    as (s1 & w1 & s2 & w2 & Hscan & Hsetup & Hok2 & Hout2).
  destruct (show_outline events s2 w2 Hok2 Hout2) as (s3 & w3 & Hshow & _).
  assert (Hmain : main input output events (boot tree file)
                  = (Ok tt, (s3, w3))).
  { unfold main, start_labeling, bind.
    now rewrite Einit, Hscan, Hsetup, Hshow. }
  split; [eauto|]. unfold run_main. now rewrite Hmain.
Qed.

(** X8.  At the end of every session that runs to the closing of the window,
    the axes show at most one outline, and it is the annotation that the new
    layer holds for the current file. *)
Theorem session_outlines_current_annotation
  (input output : path) (events : list event) (st st' : State) :
  main input output events st = (Ok tt, st') ->
  index_ok (fst st') /\ outline_ok st'.
Proof.
  unfold main, start_labeling, bind.
  destruct (init input output st) as [[[]|e] [s0 w0]] eqn:Einit;
    [|discriminate].
  apply init_returns in Einit as (_ & _ & _ & Hidx0 & _ & _).
  destruct (scan_directory (s0, w0)) as [[[]|e] [s1 w1]] eqn:Escan;
    [|discriminate].
  apply scan_directory_returns in Escan as (Hne1 & Hidx1 & _).
  assert (Hok1 : index_ok s1).
  { unfold index_ok, len. rewrite Hidx1, Hidx0.
    destruct (dicom_files s1); [congruence|simpl; lia]. }
  destruct (load_current_image_outline s1 w1 Hok1)
    as (s2 & w2 & Hrun & Hfiles & Hidx & Hout).
  unfold setup_display. rewrite Hrun.
  assert (Hok2 : index_ok s2).
  { unfold index_ok in *. now rewrite Hidx, Hfiles. }
  destruct (show_outline events s2 w2 Hok2 Hout)
    as (s3 & w3 & Hshow & Hok3 & Hout3).
  rewrite Hshow. intros [= <-]. split; [exact Hok3|exact Hout3].
Qed.

Lemma dispatch_keeps_names (ev : event) (s s' : Labeler) (w w' : World) :
  index_ok s ->
  dispatch ev (s, w) = (Ok tt, (s', w')) ->
  existing_annotations s' = existing_annotations s /\
  forall k, In k (Dict.keys (annotations s)) ->
            In k (Dict.keys (annotations s')).
Proof.
  intros Hok.
  assert (Hpre : forall s1, preloaded s s1 ->
             forall k, In k (Dict.keys (annotations s)) ->
                       In k (Dict.keys (annotations s1))).
  { intros s1 [->|(k0 & ann & _ & ->)] k Hk; auto.
    apply DictFacts.keys_set_In. now left. }
  destruct ev as [| | |[x1 y1] [x2 y2]]; cbn [dispatch].
  - destruct (previous_image_spec s w Hok)
      as (s1 & w1 & Hrun & _ & _ & Hex & Hp & _).
    rewrite Hrun. intros [= <- <-]. auto.
  - destruct (next_image_spec s w Hok)
      as (s1 & w1 & Hrun & _ & _ & Hex & Hp & _).
    rewrite Hrun. intros [= <- <-]. auto.
  - rewrite save_annotations_run. intros [= <- _]. auto.
  - destruct (index_ok_getitem s Hok) as [f Hf].
    rewrite (on_select_run s w f x1 y1 x2 y2 Hf). intros [= <- _]. simpl.
    split; [reflexivity|]. intros k Hk. apply DictFacts.keys_set_In.
    now left.
Qed.

(** X9.  Nothing a session does removes an annotation: the existing layer
    is never changed, a file name of the new layer stays in it, and so every
    file name that a save would have written before the events is written
    by a save after them. *)
Theorem session_never_drops_a_file_name (events : list event) :
  forall (s : Labeler) (w : World),
    index_ok s ->
    exists s' w',
      show events (s, w) = (Ok tt, (s', w')) /\
      existing_annotations s' = existing_annotations s /\
      forall k, In k (map filename_of (saved_rows s)) ->
                In k (map filename_of (saved_rows s')).
Proof.
  induction events as [|ev events IH]; intros s w Hok; cbn [show].
  - exists s, w. auto.
  - destruct (dispatch_index_ok ev s w Hok) as (s1 & w1 & H1 & _ & Hok1).
    destruct (dispatch_keeps_names ev s s1 w w1 Hok H1) as [Hex1 Hkeys1].
    destruct (IH s1 w1 Hok1) as (s2 & w2 & H2 & Hex2 & Hrows2).
    exists s2, w2. unfold bind. rewrite H1, H2.
    split; [reflexivity|]. split; [congruence|].
    intros k Hk. apply Hrows2. revert Hk. unfold saved_rows. simpl.
    intros [Hk|Hk]; [now left|right]. revert Hk.
    rewrite !map_map.
    rewrite !(map_ext (fun item => filename_of (annotation_row item)) fst)
      by (intros item; apply annotation_row_filename).
    change (map fst ?d) with (Dict.keys d).
    rewrite !DictFacts.keys_merge_In, Hex1. intros [Hk|Hk]; auto.
Qed.

End SessionExtras.

Section PersistenceExtras.
Context {F : PyFloat} {D : Decoders}.

(** Text written from a number reads back as that number. *)
Hypothesis float_str : forall v : num, py_float (py_str v) = Some v.

(** X12.  What is drawn and saved is what the next run starts from: after a
    selection on the current file and a Save, a program started on the
    written file loads as its existing layer the merge of the two layers,
    in which the file has the rectangle just drawn. *)
Theorem drawn_annotation_is_reloaded
  (s : Labeler) (w : World) (f : path) (eclick erelease : num * num)
  (input output : path) (tree : entry) :
  py_getitem (dicom_files s) (current_index s) = Ok f ->
  Dict.wf (annotations s) ->
  exists s1 w1 s2,
    show [Select eclick erelease; ClickSave] (s, w) = (Ok tt, (s1, w1)) /\
    init input output (boot tree (fs_output w1))
    = (Ok tt, (s2, snd (boot tree (fs_output w1)))) /\
    existing_annotations s2
    = Dict.merge (existing_annotations s) (annotations s1) /\
    Dict.get (existing_annotations s2) (name f)
    = Some (rectangle eclick erelease).
Proof.
  intros Hf Hwf. destruct eclick as [x1 y1], erelease as [x2 y2].
  cbn [show dispatch]. unfold bind.
  rewrite (on_select_run s w f x1 y1 x2 y2 Hf). cbv zeta.
  rewrite save_annotations_run.
  do 3 eexists. split; [reflexivity|]. cbn [fs_output].
  unfold boot, saved_rows. erewrite init_rows by reflexivity.
  rewrite (load_rows_saved float_str _ Dict.empty)
    by apply DictFacts.wf_merge.
  simpl app. split; [reflexivity|]. cbn [existing_annotations].
  split; [reflexivity|].
  unfold Dict.merge. rewrite DictFacts.get_update.
  - simpl. now rewrite DictFacts.get_set_eq.
  - simpl. now apply DictFacts.wf_set.
Qed.

End PersistenceExtras.

(** ** The display rescale *)

Lemma Z_upto_In (n : nat) (z : Z) :
  0 < z <= Z.of_nat n -> In z (Z_upto n).
Proof.
  intros H. unfold Z_upto. apply in_map_iff. exists (Z.to_nat z).
  split; [lia|]. apply in_seq. lia.
Qed.

Lemma rescale_8bit_check :
  forallb
    (fun m =>
       forallb (fun p => rescale_pixel m p =? p * 255 / m)
         (0 :: Z_upto (Z.to_nat m)))
    (Z_upto 255) = true.
Proof. vm_compute. reflexivity. Qed.

(** On 8-bit values the binary64 computation agrees with exact arithmetic;
    the brightest pixel becomes 255 and black stays 0. *)
Lemma rescale_pixel_8bit (m p : Z) :
  0 < m <= 255 ->
  0 <= p <= m ->
  rescale_pixel m p = p * 255 / m /\
  0 <= rescale_pixel m p <= 255 /\
  rescale_pixel m m = 255 /\
  rescale_pixel m 0 = 0.
Proof.
  intros Hm Hp.
  assert (Hall : forall q, 0 <= q <= m -> rescale_pixel m q = q * 255 / m).
  { intros q Hq. pose proof rescale_8bit_check as Hc.
    rewrite forallb_forall in Hc.
    specialize (Hc m (Z_upto_In 255 m ltac:(simpl; lia))).
    rewrite forallb_forall in Hc. apply Z.eqb_eq. apply Hc.
    destruct (Z.eq_dec q 0) as [->|Hq0]; [now left|right].
    apply Z_upto_In. lia. }
  rewrite !Hall by lia. split; [reflexivity|]. split; [|split].
  - split.
    + apply Z.div_pos; lia.
    + apply Z.div_le_upper_bound; nia.
  - replace (m * 255) with (255 * m) by lia. apply Z.div_mul. lia.
  - reflexivity.
Qed.

Lemma fold_max_bounds (ps : list Z) :
  forall p0 : Z,
    p0 <= fold_left Z.max ps p0 /\
    forall p, In p ps -> p <= fold_left Z.max ps p0.
Proof.
  induction ps as [|q ps IH]; intros p0; simpl.
  - split; [lia|tauto].
  - destruct (IH (Z.max p0 q)) as [H0 Hin]. split; [lia|].
    intros p [<-|Hp]; [lia|auto].
Qed.

Lemma image_max_bounds (img : image) (m : Z) :
  image_max img = Ok m ->
  forall line p, In line img -> In p line -> p <= m.
Proof.
  unfold image_max. intros Hmax line p Hline Hp.
  assert (Hin : In p (List.concat img)).
  { apply in_concat. eauto. }
  destruct (List.concat img) as [|p0 ps]; [discriminate|].
  injection Hmax as <-. destruct (fold_max_bounds ps p0) as [H0 Hps].
  destruct Hin as [<-|Hin]; auto.
Qed.

(** X6.  An 8-bit array (every JPEG or PNG that OpenCV reads) with a
    positive maximum [m] is displayed with every pixel [p] replaced by the
    integer part of [255 * p / m]: the binary64 division, product and cast
    of the rescale lose nothing against exact arithmetic. *)
Theorem normalize_8bit_exact (img : image) (m : Z) :
  image_max img = Ok m ->
  0 < m <= 255 ->
  (forall line p, In line img -> In p line -> 0 <= p) ->
  normalize img = Ok (map (map (fun p => p * 255 / m)) img).
Proof.
  intros Hmax Hm Hpos. unfold normalize. rewrite Hmax.
  destruct (Z.ltb_spec 0 m); [|lia]. f_equal. unfold rescale.
  apply map_ext_in. intros line Hline.
  apply map_ext_in. intros p Hp.
  apply rescale_pixel_8bit; [exact Hm|].
  split; [eapply Hpos; eauto|eapply image_max_bounds; eauto].
Qed.

(** ** The further properties on the demo session *)

(** The demo layers: [a.dcm] and [b.dcm] keep their places. *)
Lemma saved_rows_keep_order_witness :
  Dict.wf (existing_annotations demo_labeler) /\
  Dict.wf (annotations demo_labeler) /\
  exists data : list row,
    fs_output (snd (snd (save_annotations (demo_labeler, demo_world))))
      = Some (header :: data) /\
    map filename_of data = ["a.dcm"; "b.dcm"].
Proof.
  destruct demo_layers_wf as [He Hn].
  split; [exact He|]. split; [exact Hn|].
  exact (saved_rows_keep_order demo_labeler demo_world He Hn).
Defined.

(** A row of five fields followed by a comment field. *)
Lemma load_row_ignores_extra_fields_witness :
  (5 <= List.length ["a.dcm"; "1.0"; "2.0"; "3.0"; "4.0"])%nat /\
  load_row (F := ZFloat) Dict.empty
    (["a.dcm"; "1.0"; "2.0"; "3.0"; "4.0"] ++ ["checked by hand"])
  = load_row Dict.empty ["a.dcm"; "1.0"; "2.0"; "3.0"; "4.0"].
Proof.
  assert (H : (5 <= List.length ["a.dcm"; "1.0"; "2.0"; "3.0"; "4.0"])%nat)
    by (simpl; lia).
  split; [exact H|].
  exact (load_row_ignores_extra_fields (F := ZFloat) Dict.empty
           ["a.dcm"; "1.0"; "2.0"; "3.0"; "4.0"] ["checked by hand"] H).
Defined.

(** Two rows for [a.dcm] around a short row and a row for [b.dcm]. *)
Lemma load_rows_last_row_wins_witness :
  let first := ["a.dcm"; "1.0"; "2.0"; "3.0"; "4.0"] in
  let last := ["a.dcm"; "9.0"; "8.0"; "7.0"; "6.0"] in
  let after := [["a.dcm"; "5"]; ["b.dcm"; "0"; "0"; "1"; "1"]] in
  exists existing' ann,
    load_rows (F := ZFloat) Dict.empty ([first] ++ last :: after)
    = Ok existing' /\
    (5 <= List.length last)%nat /\
    (forall r', In r' after -> (5 <= List.length r')%nat ->
                nth 0 r' "" <> nth 0 last "") /\
    row_annotation last = Some ann /\
    Dict.get existing' "a.dcm" = Some ann /\
    x ann = 9.
Proof.
  cbv zeta.
  assert (Hlong : (5 <= List.length
                     ["a.dcm"; "9.0"; "8.0"; "7.0"; "6.0"])%nat)
    by (simpl; lia).
  assert (Hafter : forall r',
             In r' [["a.dcm"; "5"]; ["b.dcm"; "0"; "0"; "1"; "1"]] ->
             (5 <= List.length r')%nat ->
             nth 0 r' "" <> nth 0 ["a.dcm"; "9.0"; "8.0"; "7.0"; "6.0"] "").
  { intros r' [<-|[<-|[]]]; simpl; [lia|discriminate]. }
  eexists.
  destruct (load_rows_last_row_wins (F := ZFloat) Dict.empty _
              [["a.dcm"; "1.0"; "2.0"; "3.0"; "4.0"]]
              [["a.dcm"; "5"]; ["b.dcm"; "0"; "0"; "1"; "1"]]
              ["a.dcm"; "9.0"; "8.0"; "7.0"; "6.0"]
              eq_refl Hlong Hafter)
    as (ann & Hann & Hget).
  exists ann. split; [reflexivity|]. split; [exact Hlong|].
  split; [exact Hafter|]. split; [exact Hann|]. split; [exact Hget|].
  injection Hann as <-. reflexivity.
Defined.


(** [b.dcm], which neither decoder reads. *)
Lemma undecodable_file_is_reported_witness :
  dicom_files demo_labeler <> [] /\
  py_getitem (dicom_files demo_labeler) (current_index demo_labeler)
  = Ok ["scans"; "old"; "b.dcm"] /\
  dcmread_pixel_array ["scans"; "old"; "b.dcm"] = None /\
  cv2_imread ["scans"; "old"; "b.dcm"] = None /\
  exists w',
    load_current_image (demo_labeler, demo_world) = (Ok tt, (demo_labeler, w'))
    /\ stdout w' = [ErrorReadingFile ["scans"; "old"; "b.dcm"]]
    /\ error_text (canvas w') = true.
Proof.
  assert (Hne : dicom_files demo_labeler <> []) by (simpl; discriminate).
  split; [exact Hne|]. split; [reflexivity|]. split; [reflexivity|].
  split; [reflexivity|].
  destruct (undecodable_file_is_reported (D := demo_decoders)
              demo_labeler demo_world ["scans"; "old"; "b.dcm"]
              (10, 10) (20, 20) Hne eq_refl
              (or_introl (conj eq_refl eq_refl)))
    as (w' & Hrun & Hout & _ & _ & Herr & _).
  exists w'. split; [exact Hrun|]. split; [exact Hout|exact Herr].
Defined.

(** The array that the demo decoder makes of [c.png]. *)
Lemma normalize_8bit_exact_witness :
  image_max [[0; 100]; [200; 64]] = Ok 200 /\
  0 < 200 <= 255 /\
  (forall line p, In line [[0; 100]; [200; 64]] -> In p line -> 0 <= p) /\
  normalize [[0; 100]; [200; 64]] = Ok [[0; 127]; [255; 81]].
Proof.
  assert (Hpos : forall line p,
             In line [[0; 100]; [200; 64]] -> In p line -> 0 <= p).
  { intros line p [<-|[<-|[]]] [<-|[<-|[]]]; lia. }
  split; [reflexivity|]. split; [lia|]. split; [exact Hpos|].
  exact (normalize_8bit_exact [[0; 100]; [200; 64]] 200 eq_refl
           ltac:(lia) Hpos).
Defined.

(** Five clicks on two files. *)
Lemma navigation_clicks_saturate_witness :
  index_ok demo_labeler /\
  (exists s' w',
     show (repeat ClickNext 5) (demo_labeler, demo_world) = (Ok tt, (s', w'))
     /\ current_index s' = 1) /\
  (exists s' w',
     show (repeat ClickPrevious 5) (demo_labeler, demo_world)
     = (Ok tt, (s', w'))
     /\ current_index s' = 0).
Proof.
  split; [exact demo_index_ok|].
  exact (navigation_clicks_saturate (D := demo_decoders) 5
           demo_labeler demo_world demo_index_ok).
Defined.

(** A session on the demo directory. *)
Lemma session_outlines_current_annotation_witness :
  exists st',
    main ["scans"] ["labels.csv"] [Select (30, 5) (10, 25); ClickNext]
      (boot demo_tree None) = (Ok tt, st') /\
    index_ok (fst st') /\ outline_ok st'.
Proof.
  pose (res := main (F := ZFloat) (D := demo_decoders)
                 ["scans"] ["labels.csv"]
                 [Select (30, 5) (10, 25); ClickNext] (boot demo_tree None)).
  assert (Hres : fst res = Ok tt) by (vm_compute; reflexivity).
  assert (Hmain : res = (Ok tt, snd res)).
  { rewrite <- Hres. apply surjective_pairing. }
  exists (snd res). split; [exact Hmain|].
  exact (session_outlines_current_annotation (F := ZFloat)
           (D := demo_decoders) ["scans"] ["labels.csv"]
           [Select (30, 5) (10, 25); ClickNext] (boot demo_tree None)
           (snd res) Hmain).
Defined.

(** Saves before and after some browsing and drawing. *)
Lemma session_never_drops_a_file_name_witness :
  index_ok demo_labeler /\
  exists s' w',
    show [ClickPrevious; Select (1, 1) (9, 9); ClickNext]
      (demo_labeler, demo_world) = (Ok tt, (s', w')) /\
    existing_annotations s' = existing_annotations demo_labeler /\
    forall k, In k (map filename_of (saved_rows demo_labeler)) ->
              In k (map filename_of (saved_rows s')).
Proof.
  split; [exact demo_index_ok|].
  exact (session_never_drops_a_file_name (D := demo_decoders)
           [ClickPrevious; Select (1, 1) (9, 9); ClickNext]
           demo_labeler demo_world demo_index_ok).
Defined.

(** Drawing and browsing without Save, with no output file yet. *)
Lemma output_written_only_by_save_witness :
  ~ In ClickSave [Select (1, 1) (9, 9); ClickNext; ClickPrevious] /\
  fs_output
    (snd (run_main ["scans"] ["labels.csv"] demo_tree None
            [Select (1, 1) (9, 9); ClickNext; ClickPrevious])) = None.
Proof.
  assert (Hno : ~ In ClickSave
                  [Select (1, 1) (9, 9); ClickNext; ClickPrevious]).
  { intros [H|[H|[H|[]]]]; discriminate. }
  split; [exact Hno|].
  exact (output_written_only_by_save (F := ZFloat) (D := demo_decoders)
           ["scans"] ["labels.csv"] demo_tree None
           [Select (1, 1) (9, 9); ClickNext; ClickPrevious] Hno).
Defined.

(** A rectangle on [b.dcm], saved and loaded by the next run. *)
Lemma drawn_annotation_is_reloaded_witness :
  (forall v : Z, Z_float (Z_str v) = Some v) /\
  py_getitem (dicom_files demo_labeler) (current_index demo_labeler)
  = Ok ["scans"; "old"; "b.dcm"] /\
  Dict.wf (annotations demo_labeler) /\
  exists s1 w1 s2,
    show [Select (30, 5) (10, 25); ClickSave] (demo_labeler, demo_world)
    = (Ok tt, (s1, w1)) /\
    init ["scans"] ["labels.csv"] (boot demo_tree (fs_output w1))
    = (Ok tt, (s2, snd (boot demo_tree (fs_output w1)))) /\
    Dict.get (existing_annotations s2) "b.dcm"
    = Some {| x := 10; y := 5; width := 20; height := 20 |}.
Proof.
  split; [exact Z_float_str|]. split; [reflexivity|].
  split; [exact (proj2 demo_layers_wf)|].
  destruct (drawn_annotation_is_reloaded (F := ZFloat) (D := demo_decoders)
              Z_float_str demo_labeler demo_world ["scans"; "old"; "b.dcm"]
              (30, 5) (10, 25) ["scans"] ["labels.csv"] demo_tree eq_refl
              (proj2 demo_layers_wf))
    as (s1 & w1 & s2 & Hshow & Hinit & _ & Hget).
  exists s1, w1, s2. split; [exact Hshow|]. split; [exact Hinit|exact Hget].
Defined.

(** A rectangle on [a.dcm], which has an existing annotation. *)
Lemma rerender_restores_existing_witness :
  let s := set_current_index 0 demo_labeler in
  index_ok s /\
  current_index s < len (dicom_files s) - 1 /\
  py_getitem (dicom_files s) (current_index s) = Ok ["scans"; "a.dcm"] /\
  read_image ["scans"; "a.dcm"] = Ok [[0; 0]; [0; 0]] /\
  image_max [[0; 0]; [0; 0]] = Ok 0 /\
  Dict.get (existing_annotations s) "a.dcm"
  = Some {| x := 10; y := 20; width := 30; height := 40 |} /\
  exists s' w',
    show [Select (1, 1) (9, 9); ClickNext; ClickPrevious] (s, demo_world)
    = (Ok tt, (s', w')) /\
    Dict.get (annotations s') "a.dcm"
    = Some {| x := 10; y := 20; width := 30; height := 40 |}.
Proof.
  cbv zeta.
  assert (Hok : index_ok (set_current_index 0 demo_labeler))
    by (unfold index_ok, len; simpl; lia).
  assert (Hlt : current_index (set_current_index 0 demo_labeler)
                < len (dicom_files (set_current_index 0 demo_labeler)) - 1)
    by (unfold len; simpl; lia).
  split; [exact Hok|]. split; [exact Hlt|]. do 4 (split; [reflexivity|]).
  destruct (rerender_restores_existing (F := ZFloat) (D := demo_decoders)
              (set_current_index 0 demo_labeler) demo_world
              ["scans"; "a.dcm"] [[0; 0]; [0; 0]] 0
              (@Build_Annotation ZFloat 10 20 30 40)
              (1, 1) (9, 9) Hok Hlt eq_refl eq_refl eq_refl eq_refl)
    as (s' & w' & Hshow & _ & Hget & _).
  exists s', w'. split; [exact Hshow|exact Hget].
Defined.

(** The demo directory, with no output file. *)
Lemma session_without_save_never_raises_witness :
  fst (init ["scans"] ["labels.csv"] (boot demo_tree None)) = Ok tt /\
  glob_rec ".dcm" ["scans"] demo_tree ++ glob_rec ".jpg" ["scans"] demo_tree
    ++ glob_rec ".png" ["scans"] demo_tree <> [] /\
  ~ In ClickSave [ClickNext; Select (1, 1) (9, 9); ClickPrevious; ClickNext] /\
  fst (run_main ["scans"] ["labels.csv"] demo_tree None
         [ClickNext; Select (1, 1) (9, 9); ClickPrevious; ClickNext]) = 0.
Proof.
  assert (Hfound : glob_rec ".dcm" ["scans"] demo_tree
                   ++ glob_rec ".jpg" ["scans"] demo_tree
                   ++ glob_rec ".png" ["scans"] demo_tree <> [])
    by (simpl; discriminate).
  assert (Hno : ~ In ClickSave
                  [ClickNext; Select (1, 1) (9, 9); ClickPrevious; ClickNext]).
  { intros [H|[H|[H|[H|[]]]]]; discriminate. }
  split; [reflexivity|]. split; [exact Hfound|]. split; [exact Hno|].
  exact (proj2 (session_without_save_never_raises (F := ZFloat)
                  (D := demo_decoders)
                  ["scans"] ["labels.csv"] demo_tree None
                  [ClickNext; Select (1, 1) (9, 9); ClickPrevious; ClickNext]
                  eq_refl Hfound Hno)).
Defined.
